(** * Heuristic engines of the content pipeline: Analyzer, Scriptwriter, VisualPlanner

    A shallow embedding of the template/fallback paths of
    [content_strategy_agent.py], [content_scriptwriter_agent.py] and
    [visual_content_planner_agent.py].

    Python [str] values are modelled as [string], read as UTF-8 text one
    byte per character: character classes, case conversion and lengths
    follow Python on ASCII text, and bytes above 127 are letters without
    case.  The process-wide pseudorandom source is an explicit stream of
    draws threaded through the computation, and Python exceptions are an
    explicit outcome. *)

From Stdlib Require Import String Ascii List Arith ZArith Bool Lia.
From Stdlib Require Import Decimal DecimalString Permutation.
Import ListNotations.
Open Scope list_scope.
Open Scope string_scope.

(* ================================================================== *)
(** ** Python string primitives *)
(* ================================================================== *)

Module PyStr.

Definition LF : ascii := ascii_of_nat 10.

(** The blank-line separator ["\n\n"]. *)
Definition blank_line : string := String LF (String LF "").

(** [c.lower()] on one character. *)
Definition lower_char (c : ascii) : ascii :=
  let n := nat_of_ascii c in
  if ((65 <=? n) && (n <=? 90))%nat then ascii_of_nat (n + 32) else c.

(** [c.upper()] on one character. *)
Definition upper_char (c : ascii) : ascii :=
  let n := nat_of_ascii c in
  if ((97 <=? n) && (n <=? 122))%nat then ascii_of_nat (n - 32) else c.

(** [s.lower()] *)
Fixpoint lower (s : string) : string :=
  match s with
  | "" => ""
  | String c s' => String (lower_char c) (lower s')
  end.

(** [s.capitalize()]: first character upper-cased, the rest lower-cased. *)
Definition capitalize (s : string) : string :=
  match s with
  | "" => ""
  | String c s' => String (upper_char c) (lower s')
  end.

(** [c.isspace()] *)
Definition is_space (c : ascii) : bool :=
  let n := nat_of_ascii c in
  (((9 <=? n) && (n <=? 13)) || ((28 <=? n) && (n <=? 32)))%nat.

(** [s.startswith(p)] *)
Fixpoint startswith (p s : string) : bool :=
  match p, s with
  | "", _ => true
  | String a p', String b s' => Ascii.eqb a b && startswith p' s'
  | String _ _, "" => false
  end.

(** [sub in s] *)
Fixpoint contains (sub s : string) : bool :=
  match s with
  | "" => startswith sub ""
  | String _ s' => startswith sub s || contains sub s'
  end.

(** [s.endswith(p)] *)
Fixpoint endswith (p s : string) : bool :=
  match s with
  | "" => String.eqb p ""
  | String _ s' => String.eqb p s || endswith p s'
  end.

(** Scanning loop of [s.split(sep)]: [skip] counts the separator characters
    still to be dropped, [cur] is the piece being accumulated. *)
Fixpoint split_go (sep : string) (skip : nat) (cur s : string) : list string :=
  match s with
  | "" => [cur]
  | String c s' =>
      match skip with
      | S k => split_go sep k cur s'
      | O =>
          if startswith sep s
          then cur :: split_go sep (String.length sep - 1) "" s'
          else split_go sep 0 (cur ++ String c "") s'
      end
  end.

(** [s.split(sep)] for a non-empty separator. *)
Definition split (sep s : string) : list string := split_go sep 0 "" s.

(** Scanning loop of [s.split()]: runs of whitespace separate the words and
    empty words are dropped. *)
Fixpoint words_go (cur s : string) : list string :=
  match s with
  | "" => if String.eqb cur "" then [] else [cur]
  | String c s' =>
      if is_space c
      then (if String.eqb cur "" then words_go "" s' else cur :: words_go "" s')
      else words_go (cur ++ String c "") s'
  end.

(** [s.split()] *)
Definition words (s : string) : list string := words_go "" s.

(** [sep.join(l)] *)
Definition join (sep : string) (l : list string) : string := String.concat sep l.

(** [s.replace(old, new)] for a non-empty [old]. *)
Definition replace (old new s : string) : string := join new (split old s).

(** [s[:n]] *)
Fixpoint take (n : nat) (s : string) : string :=
  match n, s with
  | S k, String c s' => String c (take k s')
  | _, _ => ""
  end.

(** [x in l] for a list of strings. *)
Definition mem (x : string) (l : list string) : bool := existsb (String.eqb x) l.

(** [table.get(k, default)] on a dictionary of lists kept in insertion
    order. *)
Fixpoint table_get (k : string) (table : list (string * list string))
    (default : list string) : list string :=
  match table with
  | [] => default
  | (k', v) :: table' => if String.eqb k k' then v else table_get k table' default
  end.

(** Truthiness of a [str]. *)
Definition truthy (s : string) : bool := negb (String.eqb s "").

(** [o or d] for an [Optional[str]] *)
Definition or_else (o : option string) (d : string) : string :=
  match o with
  | Some s => if truthy s then s else d
  | None => d
  end.

(** [str(n)] for a non-negative integer. *)
Definition str (n : nat) : string := NilEmpty.string_of_uint (Nat.to_uint n).

(** [f"{n:02d}"] *)
Definition fmt02 (n : nat) : string := if (n <? 10)%nat then "0" ++ str n else str n.

(** [f"{t//60}:{t%60:02d}"] *)
Definition fmt_clock (t : nat) : string := str (t / 60) ++ ":" ++ fmt02 (t mod 60).

(** The text before / after the first occurrence of character [c]. *)
Fixpoint before (c : ascii) (s : string) : string :=
  match s with
  | "" => ""
  | String a s' => if Ascii.eqb a c then "" else String a (before c s')
  end.

Fixpoint after (c : ascii) (s : string) : string :=
  match s with
  | "" => ""
  | String a s' => if Ascii.eqb a c then s' else after c s'
  end.

(** [c] does not occur in [s]. *)
Fixpoint lacks (c : ascii) (s : string) : bool :=
  match s with
  | "" => true
  | String a s' => negb (Ascii.eqb a c) && lacks c s'
  end.

End PyStr.

(* ================================================================== *)
(** ** Effects: the random source and exceptions *)
(* ================================================================== *)

Module Eff.

Inductive exn : Type :=
  | IndexError
  | KeyError
  | ValueError
  | ServiceError.

Inductive res (A : Type) : Type :=
  | Ok (a : A)
  | Raise (e : exn).
Arguments Ok {A} a.
Arguments Raise {A} e.

(** The stream of draws still to be delivered by the [random] module; an
    exhausted stream delivers zeros. *)
Definition rng : Type := list nat.

(** A computation reads draws and either returns or raises; the draws it
    consumed before raising stay consumed. *)
Definition M (A : Type) : Type := rng -> res A * rng.

Definition ret {A} (a : A) : M A := fun w => (Ok a, w).

Definition raise {A} (e : exn) : M A := fun w => (Raise e, w).

Definition bind {A B} (m : M A) (k : A -> M B) : M B :=
  fun w =>
    match m w with
    | (Ok a, w') => k a w'
    | (Raise e, w') => (Raise e, w')
    end.

Definition draw : M nat :=
  fun w => match w with [] => (Ok 0, []) | r :: w' => (Ok r, w') end.

(** Lifts a pure lookup that may raise. *)
Definition lift {A} (r : res A) : M A := fun w => (r, w).

(** [try: body except Exception: handler] *)
Definition try_except {A} (body handler : M A) : M A :=
  fun w =>
    match body w with
    | (Ok a, w') => (Ok a, w')
    | (Raise _, w') => handler w'
    end.

(** Removes and returns the element at index [i]. *)
Fixpoint pick {A} (i : nat) (l : list A) : option (A * list A) :=
  match l, i with
  | [], _ => None
  | x :: l', O => Some (x, l')
  | x :: l', S j =>
      match pick j l' with
      | Some (y, r) => Some (y, x :: r)
      | None => None
      end
  end.

(** [random.choice(l)]: raises [IndexError] on the empty list. *)
Definition choice {A} (l : list A) : M A :=
  match l with
  | [] => raise IndexError
  | _ :: _ =>
      bind draw (fun r =>
        match nth_error l (r mod List.length l) with
        | Some x => ret x
        | None => raise IndexError
        end)
  end.

(** [random.sample(l, k)]: [k] elements without replacement; raises
    [ValueError] when [k] exceeds the population. *)
Fixpoint sample {A} (l : list A) (k : nat) : M (list A) :=
  match k with
  | O => ret []
  | S k' =>
      match l with
      | [] => raise ValueError
      | _ :: _ =>
          bind draw (fun r =>
            match pick (r mod List.length l) l with
            | Some (x, rest) => bind (sample rest k') (fun xs => ret (x :: xs))
            | None => raise ValueError
            end)
      end
  end.

End Eff.

Declare Scope eff_scope.
Delimit Scope eff_scope with eff.
Notation "x <- m ;; k" := (Eff.bind m (fun x => k))
  (at level 61, m at next level, right associativity) : eff_scope.
Notation "' pat <- m ;; k" := (Eff.bind m (fun x => match x with pat => k end))
  (at level 61, pat pattern, m at next level, right associativity) : eff_scope.

(* ================================================================== *)
(** ** Analyzer: [ContentStrategyAgent], template methods *)
(* ================================================================== *)

Module Analyzer.
Import PyStr Eff.

(** A [Dict[str, str]], in insertion order. *)
Definition dict : Type := list (string * string).

(** [d.get(k)] *)
Fixpoint dict_get (k : string) (d : dict) : option string :=
  match d with
  | [] => None
  | (k', v) :: d' => if String.eqb k k' then Some v else dict_get k d'
  end.

(** [d[k]] *)
Definition dict_item (k : string) (d : dict) : res string :=
  match dict_get k d with
  | Some v => Ok v
  | None => Raise KeyError
  end.

Record VideoData : Type := mkVideoData {
  title : string;
  description : option string;
  views : Z;
  publishedAt : string;
  channel : option string
}.

Record ContentAnalysisResult : Type := mkContentAnalysisResult {
  hook_patterns : list dict;
  format_trends : list string;
  engagement_tactics : list string;
  content_themes : list string;
  summary : string
}.

(** [v.description and p(v.description)] *)
Definition desc_and (v : VideoData) (p : string -> bool) : bool :=
  match description v with
  | Some d => truthy d && p d
  | None => false
  end.

(** [{"type": t, "example": ex}] *)
Definition hook_pattern (t ex : string) : dict := [("type", t); ("example", ex)].

(** [if hooks: hook_patterns.append({"type": t, "example": hooks[0].title})] *)
Definition emit (t : string) (hooks : list VideoData) : list dict :=
  match hooks with
  | [] => []
  | v :: _ => [hook_pattern t (title v)]
  end.

Definition is_question_hook (v : VideoData) : bool :=
  endswith "?" (title v)
  || desc_and v (fun d => contains "?" (hd "" (split "." d))).

Definition shock_words : list string :=
  ["wrong"; "mistake"; "shocking"; "never"; "secret"].

Definition is_shock_hook (v : VideoData) : bool :=
  existsb (fun word => contains word (lower (title v))) shock_words.

(** [any(str(i) in v.title for i in range(1, 11))] *)
Definition is_number_hook (v : VideoData) : bool :=
  existsb (fun i => contains (str i) (title v)) (seq 1 10).

Definition is_story_hook (v : VideoData) : bool :=
  mem "I" (words (title v))
  || desc_and v (fun d => mem "I" (firstn 5 (words d))).

Definition _analyze_hooks (videos : list VideoData) : list dict :=
  (emit "question-based" (filter is_question_hook videos)
   ++ emit "shock-based" (filter is_shock_hook videos)
   ++ emit "number-based" (filter is_number_hook videos)
   ++ emit "personal-story" (filter is_story_hook videos))%list.

(** [c.isdigit()] *)
Definition is_digit (c : ascii) : bool :=
  let n := nat_of_ascii c in ((48 <=? n) && (n <=? 57))%nat.

Fixpoint any_char (p : ascii -> bool) (s : string) : bool :=
  match s with
  | "" => false
  | String c s' => p c || any_char p s'
  end.

(** [if flag: l.append(x)] *)
Definition append_if (flag : bool) (x : string) : list string :=
  if flag then [x] else [].

Definition _analyze_format (videos : list VideoData) : list string :=
  let has_numbers := existsb (fun v => any_char is_digit (title v)) videos in
  let how_to :=
    existsb (fun v => contains "how to" (lower (title v))
                      || desc_and v (fun d => contains "how to" (lower d))) videos in
  let transformation :=
    existsb (fun v => (contains "before" (lower (title v))
                       && contains "after" (lower (title v)))
                      || desc_and v (fun d => contains "before" (lower d)
                                              && contains "after" (lower d))) videos in
  (append_if has_numbers "List-based format (e.g., '5 tips', '3 mistakes')"
   ++ append_if how_to "Tutorial/How-to format with step-by-step instructions"
   ++ append_if transformation "Before/After transformation format"
   ++ ["Hook (0-3s) → Problem/Pain Point (3-8s) → Solution/Value (8-20s) → CTA (last 5s)";
       "Fast-paced editing with text overlays and background music"])%list.

Definition cta_words : list string :=
  ["follow"; "subscribe"; "like"; "comment"; "share"].

Definition _analyze_engagement (videos : list VideoData) : list string :=
  let questions :=
    existsb (fun v => contains "?" (title v)
                      || desc_and v (fun d => contains "?" d)) videos in
  let cta :=
    existsb (fun v =>
      existsb (fun word =>
        match description v with
        | Some d => if truthy d then contains word (lower d) else false
        | None => false
        end) cta_words) videos in
  (append_if questions "Direct questions to viewers to encourage comments"
   ++ append_if cta "Explicit calls-to-action (follow, like, comment)"
   ++ ["Open loops (creating curiosity gaps that keep viewers watching)";
       "Relatable scenarios that prompt viewers to tag friends";
       "Controversial or counterintuitive statements to drive discussion"])%list.

(** One keyword-pair check of [_analyze_themes]. *)
Definition theme_check (k1 k2 : string) (videos : list VideoData) : bool :=
  existsb (fun v => contains k1 (lower (title v)) || contains k2 (lower (title v))
                    || desc_and v (fun d => contains k1 (lower d)
                                            || contains k2 (lower d))) videos.

Definition _analyze_themes (videos : list VideoData) : list string :=
  (append_if (theme_check "habit" "productivity" videos)
     "Personal productivity and habit formation"
   ++ append_if (theme_check "tech" "phone" videos)
     "Technology tips and gadget hacks"
   ++ append_if (theme_check "health" "diet" videos)
     "Health, nutrition, and wellness advice"
   ++ ["Life hacks and everyday problem-solving";
       "Behind-the-scenes or 'day in the life' content"])%list.

(** [[h['type'] for h in hook_patterns]] *)
Fixpoint hook_types (hook_patterns : list dict) : res (list string) :=
  match hook_patterns with
  | [] => Ok []
  | h :: hs =>
      match dict_item "type" h with
      | Raise e => Raise e
      | Ok t =>
          match hook_types hs with
          | Raise e => Raise e
          | Ok ts => Ok (t :: ts)
          end
      end
  end.

Section Summary.

(** The rendering [f"{total / count:,.0f}"] of the float quotient of the
    view total by a positive number of videos; binary floating point is
    outside this development, so the rendering is a parameter. *)
Variable format_mean : Z -> nat -> string.

(** [f"{avg_views:,.0f}"] with
    [avg_views = sum(v.views for v in videos) / len(videos) if videos else 0] *)
Definition avg_views_text (videos : list VideoData) : string :=
  match videos with
  | [] => "0"
  | _ :: _ =>
      format_mean (fold_left (fun acc v => (acc + views v)%Z) videos 0%Z)
                  (List.length videos)
  end.

Definition _generate_summary (videos : list VideoData) (hook_patterns : list dict)
    (format_trends engagement_tactics content_themes : list string) : res string :=
  let s0 := "The analyzed videos (averaging " ++ avg_views_text videos
            ++ " views) typically use " in
  match
    match hook_patterns with
    | [] => Ok s0
    | _ :: _ =>
        match hook_types hook_patterns with
        | Raise e => Raise e
        | Ok types =>
            Ok (s0 ++ (if (1 <? List.length types)%nat
                       then join ", " (removelast types) ++ " and " ++ last types ""
                       else hd "" types) ++ " hooks, ")
        end
    end
  with
  | Raise e => Raise e
  | Ok s1 =>
      let s2 :=
        match format_trends with
        | [] => s1
        | t :: _ => s1 ++ "with a structure that typically follows " ++ lower t ++ ". "
        end in
      let s3 :=
        match engagement_tactics with
        | [] => s2
        | t :: rest =>
            s2 ++ "Successful videos employ " ++ lower t ++ " and "
               ++ match rest with t' :: _ => lower t' | [] => "" end
               ++ " to drive viewer interaction. "
        end in
      let s4 :=
        match content_themes with
        | [] => s3
        | t :: rest =>
            s3 ++ "The most popular content focuses on " ++ lower t
               ++ match rest with t' :: _ => " and " ++ lower t' ++ "." | [] => "." end
        end in
      Ok s4
  end.

(** The template analysis of [analyze_videos]: the four detectors followed
    by the summary. *)
Definition analyze_videos_template (videos : list VideoData)
    : res ContentAnalysisResult :=
  let hook_patterns := _analyze_hooks videos in
  let format_trends := _analyze_format videos in
  let engagement_tactics := _analyze_engagement videos in
  let content_themes := _analyze_themes videos in
  match _generate_summary videos hook_patterns format_trends
          engagement_tactics content_themes with
  | Raise e => Raise e
  | Ok summary =>
      Ok (mkContentAnalysisResult hook_patterns format_trends
            engagement_tactics content_themes summary)
  end.

End Summary.

End Analyzer.

(* ================================================================== *)
(** ** Scriptwriter: [ContentScriptwriterAgent] *)
(* ================================================================== *)

Module Scriptwriter.
Import PyStr Eff.
Local Open Scope eff_scope.

Record ScriptRequest : Type := mkScriptRequest {
  hook_patterns : list Analyzer.dict;
  format_trends : list string;
  engagement_tactics : list string;
  content_themes : list string;
  summary : string;
  target_length : Z;
  platform : string;
  niche_insights : list (string * list string)
}.

Record ScriptResponse : Type := mkScriptResponse {
  title : string;
  script : string;
  hook_type : string;
  estimated_duration : nat;
  theme : string;
  cta : string;
  notes : list string
}.

Definition shock_templates : list string :=
  ["You've been [action] wrong this whole time.";
   "This is the biggest mistake people make when [action].";
   "I can't believe I didn't know this [topic] secret sooner.";
   "Stop [action] immediately if you're doing this."].

Definition hook_templates : list (string * list string) :=
  [("shock-based", shock_templates);
   ("question-based",
    ["What if I told you [surprising claim]?";
     "Ever wondered why [intriguing question]?";
     "Do you make this common [topic] mistake?";
     "Want to know the real reason [curious situation]?"]);
   ("number-based",
    ["3 [topic] hacks that changed my life.";
     "The #1 reason your [topic] isn't working.";
     "5 seconds that will change how you [action].";
     "These 3 [topic] tips saved me hours every day."]);
   ("personal-story",
    ["I tried [action] for 30 days and here's what happened.";
     "My [topic] routine was completely wrong until I discovered this.";
     "I was shocked when I learned this [topic] secret.";
     "Let me show you how I [action] to get these results."])].

Definition all_cta_templates : list string :=
  ["Follow for more [topic] tips that nobody talks about.";
   "Comment if you're going to try this today.";
   "Like and save this for later!";
   "Let me know your results in the comments!"].

Definition cta_templates : list (string * list string) :=
  [("tiktok",
    ["Hit that follow button if you want more [topic] tips like this.";
     "Comment '[phrase]' if you're going to try this.";
     "Stitch this with your results!";
     "Save this for later when you need it!"]);
   ("youtube_shorts",
    ["Subscribe for more [topic] hacks that actually work.";
     "Let me know in the comments if this helped you.";
     "Check the link in my bio for the full tutorial.";
     "Hit the bell so you don't miss part 2!"]);
   ("instagram_reels",
    ["Save this to your collection for when you need it.";
     "Tag someone who needs to see this [topic] hack.";
     "DM me your before and after if you try this!";
     "Share this with someone who's been struggling with [topic]."]);
   ("all", all_cta_templates)].

(** [theme.split()[0].lower()]: raises [IndexError] when the theme has no
    word. *)
Definition first_word_lower (theme : string) : res string :=
  match words theme with
  | [] => Raise IndexError
  | w :: _ => Ok (lower w)
  end.

(** The data interpolated into the three prompts; the surrounding prompt
    text is fixed. *)
Inductive prompt : Type :=
  | HookPrompt (content_theme : string) (patterns : list (string * string))
  | BodyPrompt (hook theme : string) (format_trends : list string)
  | CtaPrompt (platform theme : string) (engagement_tactics : list string).

(** [(h['type'], h.get('example', ''))] for each pattern, as interpolated
    into the hook prompt. *)
Fixpoint prompt_entries (hook_patterns : list Analyzer.dict) : res (list (string * string)) :=
  match hook_patterns with
  | [] => Ok []
  | h :: hs =>
      match Analyzer.dict_item "type" h with
      | Raise e => Raise e
      | Ok t =>
          match prompt_entries hs with
          | Raise e => Raise e
          | Ok es =>
              Ok ((t, match Analyzer.dict_get "example" h with
                      | Some ex => ex
                      | None => ""
                      end) :: es)
          end
      end
  end.

(** The loop that tags a generated hook with the first pattern whose
    example shares a word with it; ["shock-based"] when none does. *)
Fixpoint infer_hook_type (gpt_hook : string) (hook_patterns : list Analyzer.dict) : res string :=
  match hook_patterns with
  | [] => Ok "shock-based"
  | p :: ps =>
      match Analyzer.dict_get "example" p with
      | Some ex =>
          if truthy ex
             && existsb (fun keyword => contains keyword (lower gpt_hook))
                        (words (lower ex))
          then Analyzer.dict_item "type" p
          else infer_hook_type gpt_hook ps
      | None => infer_hook_type gpt_hook ps
      end
  end.

Definition _get_action_from_theme (theme : string) : M string :=
  let theme_lower := lower theme in
  if contains "productivity" theme_lower || contains "habit" theme_lower
     || contains "time management" theme_lower
  then choice ["planning your day"; "setting priorities"; "managing your time"]
  else if contains "tech" theme_lower || contains "phone" theme_lower
  then choice ["charging your phone"; "using your apps"; "backing up your data"]
  else if contains "health" theme_lower || contains "diet" theme_lower
          || contains "nutrition" theme_lower
  then choice ["meal prepping"; "counting calories"; "planning your diet"]
  else if contains "life hack" theme_lower || contains "problem-solving" theme_lower
  then choice ["organizing your space"; "saving money"; "simplifying your life"]
  else ret "doing this".

Section Generation.

(** [_generate_with_gpt]: the reply of the external service, [None] when the
    call fails. *)
Variable _generate_with_gpt : prompt -> option string.

(** [if reply:] on an [Optional[str]] *)
Definition usable (reply : option string) : option string :=
  match reply with
  | Some s => if truthy s then Some s else None
  | None => None
  end.

(** Returns the pair [(type, hook)] of the selection dictionary. *)
Definition _select_hook (hook_patterns : list Analyzer.dict) (content_theme : string)
    : M (string * string) :=
  entries <- lift (prompt_entries hook_patterns) ;;
  match usable (_generate_with_gpt (HookPrompt content_theme entries)) with
  | Some gpt_hook =>
      hook_type <- lift (infer_hook_type gpt_hook hook_patterns) ;;
      ret (hook_type, gpt_hook)
  | None =>
      match hook_patterns with
      | _ :: _ =>
          p <- choice hook_patterns ;;
          selected_hook_type <- lift (Analyzer.dict_item "type" p) ;;
          let templates := table_get selected_hook_type hook_templates shock_templates in
          template <- choice templates ;;
          topic <- lift (first_word_lower content_theme) ;;
          let hook := replace "[topic]" topic template in
          action <- _get_action_from_theme content_theme ;;
          let hook := replace "[action]" action hook in
          topic <- lift (first_word_lower content_theme) ;;
          let hook := replace "[surprising claim]"
                        ("one simple " ++ topic ++ " hack could save you hours") hook in
          topic <- lift (first_word_lower content_theme) ;;
          let hook := replace "[intriguing question]"
                        ("most people get " ++ topic ++ " completely wrong") hook in
          topic <- lift (first_word_lower content_theme) ;;
          let hook := replace "[curious situation]"
                        ("your " ++ topic ++ " isn't improving") hook in
          let hook := replace "[phrase]" "I'll try this" hook in
          ret (selected_hook_type, hook)
      | [] =>
          topic <- lift (first_word_lower content_theme) ;;
          ret ("shock-based", "You've been approaching " ++ topic ++ " all wrong.")
      end
  end.

Definition _select_cta (engagement_tactics : list string) (platform theme : string)
    : M string :=
  match usable (_generate_with_gpt (CtaPrompt platform theme engagement_tactics)) with
  | Some gpt_cta => ret gpt_cta
  | None =>
      let templates := table_get (lower platform) cta_templates all_cta_templates in
      template <- choice templates ;;
      topic <- lift (first_word_lower theme) ;;
      let cta := replace "[topic]" topic template in
      let cta := replace "[phrase]" "I'll try this" cta in
      ret cta
  end.

(** The fixed problem and solution sentences of the keyword-routed bucket. *)
Definition body_bucket (theme : string) : string * string :=
  let t := lower theme in
  if contains "productivity" t || contains "habit" t || contains "time management" t
  then ("Most people waste hours every day on tasks that don't move the needle. [show frustrated person]",
        "Instead, try time blocking: [cut to phone calendar] First, identify your top 3 priorities for tomorrow. [show list] Then, schedule specific time blocks for each one. [show calendar] The key is to work in 25-minute focused sessions with 5-minute breaks. [show timer]")
  else if contains "tech" t || contains "phone" t
  then ("Your phone battery dying mid-day is not just annoying—it's preventable. [show phone at 1%]",
        "Here's what actually kills your battery: [cut to settings] Background apps constantly refreshing. [show settings menu] Go to Settings → General → Background App Refresh and turn it off for apps you don't need instant updates from. [show toggling off] This one change can give you 2-3 extra hours of battery life. [show battery percentage increasing]")
  else if contains "health" t || contains "diet" t || contains "nutrition" t
  then ("That afternoon energy crash isn't normal, and it's probably because of what you're eating for lunch. [show tired person at desk]",
        "Try this instead: [cut to meal prep] Combine protein, healthy fats, and complex carbs in every meal. [show food items] For example: grilled chicken, avocado, and sweet potato. [show meal] This balanced combo prevents blood sugar spikes and keeps your energy stable all day. [show energetic person working]")
  else ("We all struggle with having too much to do and too little time. [show overwhelmed person]",
        "Here's a simple system that changed everything for me: [cut to notebook] The 1-3-5 Rule. Each day, commit to accomplishing: 1 big thing, 3 medium things, and 5 small things. [show list] That's it. This prevents overwhelm while still ensuring progress on what matters. [show completed list]").

Definition _generate_script_body (hook theme : string) (format_trends : list string)
    : string :=
  match usable (_generate_with_gpt (BodyPrompt hook theme format_trends)) with
  | Some gpt_body => hook ++ blank_line ++ gpt_body
  | None =>
      let '(problem, solution) := body_bucket theme in
      hook ++ blank_line ++ problem ++ blank_line ++ solution
  end.

(** [random.choice(request.content_themes) if request.content_themes
     else "productivity hacks"] *)
Definition select_theme (content_themes : list string) : M string :=
  match content_themes with
  | [] => ret "productivity hacks"
  | _ :: _ => choice content_themes
  end.

(** [title[:57] + "..."] when the hook is longer than 60 characters. *)
Definition make_title (hook : string) : string :=
  if (60 <? String.length hook)%nat then take 57 hook ++ "..." else hook.

(** [max(min(int(word_count / 2.5), 60), 15)]; the float quotient
    truncates to [2 * word_count // 5], and the clamp hides the range where
    the float could lose precision. *)
Definition estimate_duration (full_script : string) : nat :=
  let word_count := List.length (words full_script) in
  Nat.max (Nat.min (2 * word_count / 5) 60) 15.

Definition platform_note (platform : string) : list string :=
  if String.eqb (lower platform) "tiktok"
  then ["Optimize for mobile vertical format (9:16)"]
  else if String.eqb (lower platform) "youtube_shorts"
  then ["Include subscribe reminder overlay in final seconds"]
  else if String.eqb (lower platform) "instagram_reels"
  then ["Consider adding trending sound/music for additional reach"]
  else [].

Definition generate_script (request : ScriptRequest) : M ScriptResponse :=
  selected_theme <- select_theme (content_themes request) ;;
  hook_selection <- _select_hook (hook_patterns request) selected_theme ;;
  let script_body :=
    _generate_script_body (snd hook_selection) selected_theme (format_trends request) in
  cta <- _select_cta (engagement_tactics request) (platform request) selected_theme ;;
  let full_script := script_body ++ blank_line ++ cta in
  let title := make_title (snd hook_selection) in
  let estimated_duration := estimate_duration full_script in
  let notes :=
    List.app
      ["Estimated duration: " ++ str estimated_duration ++ " seconds";
       "Hook type: " ++ fst hook_selection;
       "Primary theme: " ++ selected_theme;
       "Target platform: " ++ platform request]
      (platform_note (platform request)) in
  ret (mkScriptResponse title full_script (fst hook_selection) estimated_duration
         selected_theme cta notes).

End Generation.

(** The template path: every call to the external service fails. *)
Definition no_gpt : prompt -> option string := fun _ => None.

End Scriptwriter.

(* ================================================================== *)
(** ** VisualPlanner: [VisualContentPlannerAgent] *)
(* ================================================================== *)

Module VisualPlanner.
Import PyStr Eff.
Local Open Scope eff_scope.

Record SceneData : Type := mkSceneData {
  timestamp : string;
  script_segment : string;
  stock_footage : list string;
  text_overlay : option string;
  visual_effects : list string;
  transition : string
}.

Record VisualPlanRequest : Type := mkVisualPlanRequest {
  script : string;
  hook : option string;
  cta : option string;
  niche : option string;
  tone : string;
  platform : string
}.

Record VisualPlanResponse : Type := mkVisualPlanResponse {
  title : string;
  scenes : list SceneData;
  total_duration : string;
  music_recommendation : string;
  voiceover_style : string;
  stock_footage_platforms : list string;
  editing_tips : list string
}.

Definition transitions : list string :=
  ["Cut"; "Fade"; "Dissolve"; "Wipe"; "Zoom In"; "Zoom Out"; "Slide Left";
   "Slide Right"; "Whip Pan"; "Split Screen"].

Definition tiktok_effects : list string :=
  ["Slow Motion"; "Text Animation"; "Green Screen"; "Duet Effect";
   "Background Blur"; "Color Filter"; "Time Warp Scan"; "Sticker Overlay";
   "Glitch Effect"; "Tracking Text"].

Definition visual_effects_table : list (string * list string) :=
  [("TikTok", tiktok_effects);
   ("Instagram",
    ["Boomerang"; "Superzoom"; "Face Filters"; "GIF Stickers"; "Color Filter";
     "Drawing Tools"; "3D Text"; "AR Effects"; "Depth Effect"; "Slow Motion"]);
   ("YouTube",
    ["Lower Thirds"; "Closed Captions"; "End Screen Elements"; "Pop-up Cards";
     "Split Screen"; "Screen-in-Screen"; "Zoom Emphasis"; "Motion Graphics";
     "Cross Fade"; "Color Grading"])].

Definition footage_platforms : list string :=
  ["Pexels"; "Pixabay"; "Unsplash"; "Storyblocks"; "Mixkit"; "Videvo"; "Coverr"].

(** [for k, v in table.items(): if k in text: return v]: the value of the
    first key, in insertion order, that occurs in [text]. *)
Fixpoint first_match {A : Type} (table : list (string * A)) (text : string)
    : option A :=
  match table with
  | [] => None
  | (k, v) :: table' => if contains k text then Some v else first_match table' text
  end.

Definition niche_footage : list (string * list string) :=
  [("productivity", ["person working at desk"; "calendar planning"; "time management app"]);
   ("tech", ["smartphone usage"; "app interface"; "tech gadget closeup"]);
   ("health", ["healthy meal prep"; "workout sequence"; "meditation scene"]);
   ("finance", ["money saving visualization"; "investment chart"; "budgeting app"]);
   ("home", ["home organization"; "cleaning transformation"; "interior design"]);
   ("beauty", ["skincare routine"; "makeup application"; "before/after transition"]);
   ("fashion", ["outfit styling"; "fabric closeup"; "accessory details"]);
   ("travel", ["destination views"; "packing process"; "travel hacks"]);
   ("cooking", ["ingredient preparation"; "cooking technique"; "final dish reveal"]);
   ("fitness", ["workout demonstration"; "before/after body transformation"; "gym equipment"])].

Definition default_footage : list string :=
  ["person speaking to camera"; "relevant B-roll footage";
   "text animation on solid background"].

(** [[word.lower() for word in segment.split() if len(word) > 3]] *)
Definition segment_keywords (segment : string) : list string :=
  map lower (filter (fun word => (3 <? String.length word)%nat) (words segment)).

Definition visual (kw : string) : string := kw ++ " visual".

Definition _suggest_stock_footage (segment niche : string) : M (list string) :=
  let keywords := segment_keywords segment in
  match first_match niche_footage (lower niche) with
  | Some suggestions =>
      specific_suggestions <-
        match keywords with
        | _ :: _ => kw <- choice keywords ;; ret (List.app suggestions [visual kw])
        | [] => ret suggestions
        end ;;
      ret (firstn 3 specific_suggestions)
  | None =>
      match keywords with
      | _ :: _ =>
          kws <- sample keywords (Nat.min 3 (List.length keywords)) ;;
          let keyword_suggestions := map visual kws in
          ret (List.app keyword_suggestions
                 (firstn (3 - List.length keyword_suggestions) default_footage))
      | [] => ret default_footage
      end
  end.

Definition _suggest_text_overlay (segment : string) : option string :=
  if (String.length segment <? 40)%nat then Some segment
  else
    let key_phrase := hd "" (split "." segment) in
    if contains "." segment && (String.length key_phrase <? 40)%nat
    then Some key_phrase
    else
      let ws := words segment in
      if (5 <? List.length ws)%nat then Some (join " " (firstn 5 ws) ++ "...")
      else None.

(** The preferred effects available on the platform, or the whole platform
    pool when none is. *)
Definition available_effects (preferred platform_effects : list string) : list string :=
  match filter (fun e => mem e platform_effects) preferred with
  | [] => platform_effects
  | e :: es => e :: es
  end.

Definition _suggest_visual_effects (platform scene_type : string) : M (list string) :=
  let platform_effects := table_get platform visual_effects_table tiktok_effects in
  if String.eqb scene_type "hook" then
    let available :=
      available_effects ["Text Animation"; "Zoom In"; "Color Filter"; "Motion Graphics"]
                        platform_effects in
    sample available (Nat.min 2 (List.length available))
  else if String.eqb scene_type "cta" then
    let available :=
      available_effects ["Text Animation"; "Sticker Overlay"; "3D Text"; "GIF Stickers"]
                        platform_effects in
    sample available (Nat.min 2 (List.length available))
  else sample platform_effects (Nat.min 2 (List.length platform_effects)).

Definition niche_music : list (string * string) :=
  [("productivity", "Upbeat lo-fi with light percussion");
   ("tech", "Modern electronic with tech sounds");
   ("health", "Calm ambient with nature elements");
   ("finance", "Professional corporate with positive progression");
   ("home", "Cozy acoustic with warm tones");
   ("beauty", "Stylish pop with fashionable beats");
   ("fashion", "Trendy electronic with runway vibes");
   ("travel", "Exotic instrumental with cultural elements");
   ("cooking", "Light jazz with kitchen-friendly rhythm");
   ("fitness", "High-energy EDM with strong beat")].

Definition tone_adjectives : list (string * string) :=
  [("energetic", "high-energy"); ("calm", "soothing"); ("professional", "polished");
   ("fun", "playful"); ("emotional", "moving"); ("informative", "neutral");
   ("inspiring", "uplifting"); ("humorous", "quirky")].

Definition niche_voice : list (string * string) :=
  [("productivity", "Clear and motivational");
   ("tech", "Knowledgeable and straightforward");
   ("health", "Calming and authoritative");
   ("finance", "Professional and trustworthy");
   ("home", "Friendly and approachable");
   ("beauty", "Enthusiastic and detailed");
   ("fashion", "Stylish and confident");
   ("travel", "Adventurous and descriptive");
   ("cooking", "Warm and instructional");
   ("fitness", "Energetic and encouraging")].

Definition tone_modifiers : list (string * string) :=
  [("energetic", "with high energy"); ("calm", "with a soothing tone");
   ("professional", "with expert delivery"); ("fun", "with playful inflection");
   ("emotional", "with authentic feeling"); ("informative", "with clear articulation");
   ("inspiring", "with motivational emphasis"); ("humorous", "with comedic timing")].

(** The loop with [break] that overwrites [base] with the first match. *)
Definition first_match_or (table : list (string * string)) (text base : string) : string :=
  match first_match table text with
  | Some v => v
  | None => base
  end.

Definition _suggest_music (niche tone : string) : string :=
  let music_base := first_match_or niche_music (lower niche) "Trendy background music" in
  let tone_modifier := first_match_or tone_adjectives (lower tone) "" in
  if truthy tone_modifier
  then capitalize tone_modifier ++ " " ++ lower music_base
  else music_base.

Definition _suggest_voiceover (niche tone : string) : string :=
  let voice_base := first_match_or niche_voice (lower niche) "Engaging and conversational" in
  let tone_modifier := first_match_or tone_modifiers (lower tone) "" in
  if truthy tone_modifier
  then voice_base ++ " " ++ tone_modifier
  else voice_base.

Definition platform_tips : list (string * list string) :=
  [("TikTok",
    ["Keep transitions snappy - no longer than 0.3 seconds";
     "Use trending sounds/music to increase discoverability";
     "Add closed captions for better engagement (80% watch with sound off)";
     "Maintain high-energy pacing throughout";
     "Include text overlays for key points";
     "Use trending effects when they match your content";
     "Front-load the hook in the first 1-2 seconds";
     "End with a strong call-to-action"]);
   ("Instagram",
    ["Maintain 9:16 aspect ratio for optimal display";
     "Use Instagram's built-in effects for better algorithmic performance";
     "Include a mix of on-screen text and voiceover";
     "Tag relevant accounts/products in the video";
     "Use Instagram's music library for better reach";
     "Create shareable moments for Stories reshares";
     "Design colorful and vibrant visuals";
     "End with a question to encourage comments"]);
   ("YouTube",
    ["Include a clear hook within the first 3 seconds";
     "Add a branded subscribe animation at the end";
     "Use YouTube's end screen elements for the last 5-10 seconds";
     "Optimize brightness and contrast for mobile viewing";
     "Include closed captions for accessibility";
     "Use chapters/timestamps in video description";
     "Create a consistent color grade throughout";
     "Include subtle background music at 10-15% volume under narration"])].

Definition default_tips : list string :=
  ["Keep editing pace fast with cuts every 1-2 seconds";
   "Add text overlays for all key points";
   "Use subtle zoom effects to maintain visual interest";
   "Include motion graphics for statistics or numbers";
   "Ensure clear audio quality for voiceover"].

Definition _suggest_editing_tips (platform : string) : M (list string) :=
  let tips := table_get platform platform_tips default_tips in
  sample tips (Nat.min 5 (List.length tips)).

(** [f"{start//60}:{start%60:02d}-{end//60}:{end%60:02d}"] *)
Definition fmt_range (start_time end_time : nat) : string :=
  fmt_clock start_time ++ "-" ++ fmt_clock end_time.

(** [segments[1:-1] if len(segments) > 2 else segments] *)
Definition content_segments (segments : list string) : list string :=
  if (2 <? List.length segments)%nat then removelast (tl segments) else segments.

(** [max(3, min(10, 30 // max(1, len(segments) - 2)))] *)
Definition segment_duration (segments : list string) : nat :=
  Nat.max 3 (Nat.min 10 (30 / Nat.max 1 (List.length segments - 2))).

(** The loop over the content segments; returns the scenes appended and the
    running [total_seconds]. *)
Fixpoint content_scenes (platform niche : string) (duration : nat)
    (segments : list string) (total_seconds : nat) : M (list SceneData * nat) :=
  match segments with
  | [] => ret ([], total_seconds)
  | segment :: rest =>
      let start_time := total_seconds in
      let end_time := total_seconds + duration in
      footage <- _suggest_stock_footage segment niche ;;
      effects <- _suggest_visual_effects platform "content" ;;
      trans <- choice transitions ;;
      let scene := mkSceneData (fmt_range start_time end_time) segment footage
                     (_suggest_text_overlay segment) effects trans in
      ' (more, total) <- content_scenes platform niche duration rest
                           (total_seconds + duration) ;;
      ret (scene :: more, total)
  end.

(** [text if len(text) < 40 else None] *)
Definition short_overlay (text : string) : option string :=
  if (String.length text <? 40)%nat then Some text else None.

(** [request.hook or (script.split("\n\n")[0] if "\n\n" in script
     else script.split(".")[0])] *)
Definition request_hook (request : VisualPlanRequest) : string :=
  or_else (hook request)
    (if contains blank_line (script request)
     then hd "" (split blank_line (script request))
     else hd "" (split "." (script request))).

(** [request.cta or "Follow for more content like this!"] *)
Definition request_cta (request : VisualPlanRequest) : string :=
  or_else (cta request) "Follow for more content like this!".

(** [request.niche or "lifestyle"] *)
Definition request_niche (request : VisualPlanRequest) : string :=
  or_else (niche request) "lifestyle".

(** [script.split("\n\n") if "\n\n" in script else script.split(". ")] *)
Definition script_segments (script : string) : list string :=
  if contains blank_line script then split blank_line script else split ". " script.

Definition _create_visual_plan_template (request : VisualPlanRequest)
    : M VisualPlanResponse :=
  let script := script request in
  let hook := request_hook request in
  let cta := request_cta request in
  let niche := request_niche request in
  let platform := platform request in
  let title := if (String.length hook <? 60)%nat then hook else take 57 hook ++ "..." in
  let segments := script_segments script in
  (* Hook scene (0:00-0:05) *)
  hook_footage <- _suggest_stock_footage hook niche ;;
  hook_effects <- _suggest_visual_effects platform "hook" ;;
  hook_transition <- choice transitions ;;
  let hook_scene := mkSceneData "0:00-0:05" hook hook_footage (short_overlay hook)
                      hook_effects hook_transition in
  let total_seconds := 5 in
  (* Content scenes *)
  ' (content, total_seconds) <-
      content_scenes platform niche (segment_duration segments)
        (content_segments segments) total_seconds ;;
  (* CTA scene *)
  ' (closing, total_seconds) <-
      (if truthy cta then
         let start_time := total_seconds in
         let end_time := total_seconds + 5 in
         cta_footage <- _suggest_stock_footage "creator speaking directly to camera" niche ;;
         cta_effects <- _suggest_visual_effects platform "cta" ;;
         ret ([mkSceneData (fmt_range start_time end_time) cta cta_footage
                 (short_overlay cta) cta_effects "Fade"], total_seconds + 5)
       else ret ([], total_seconds)) ;;
  let total_duration := fmt_clock total_seconds in
  let music_recommendation := _suggest_music niche (tone request) in
  let voiceover_style := _suggest_voiceover niche (tone request) in
  stock_footage_platforms <-
    sample footage_platforms (Nat.min 4 (List.length footage_platforms)) ;;
  editing_tips <- _suggest_editing_tips platform ;;
  ret (mkVisualPlanResponse title (List.app (hook_scene :: content) closing)
         total_duration music_recommendation voiceover_style
         stock_footage_platforms editing_tips).

Definition _create_fallback_plan (request : VisualPlanRequest) : VisualPlanResponse :=
  let script := script request in
  let hook := or_else (hook request) "Attention-grabbing hook" in
  mkVisualPlanResponse hook
    [mkSceneData "0:00-0:30" script ["Person talking to camera"; "Relevant B-roll"]
       (Some "Key message") ["Text Animation"] "Cut"]
    "0:30" "Upbeat background music" "Clear and engaging"
    ["Pexels"; "Pixabay"] ["Keep it simple"; "Focus on clear audio"].

Section Boundary.

(** [_generate_visual_plan_with_gpt]: the plan parsed from the external
    service's reply, [None] when there is no usable reply. *)
Variable _generate_visual_plan_with_gpt : VisualPlanRequest -> M (option VisualPlanResponse).

(** The template step run when the generated plan is missing. *)
Variable template_step : VisualPlanRequest -> M VisualPlanResponse.

(** The body of the [try] block. *)
Definition plan_attempt (request : VisualPlanRequest) : M VisualPlanResponse :=
  gpt_plan <- _generate_visual_plan_with_gpt request ;;
  match gpt_plan with
  | Some plan => ret plan
  | None => template_step request
  end.

Definition create_visual_plan_with (request : VisualPlanRequest) : M VisualPlanResponse :=
  try_except (plan_attempt request) (ret (_create_fallback_plan request)).

End Boundary.

Definition create_visual_plan
    (_generate_visual_plan_with_gpt : VisualPlanRequest -> M (option VisualPlanResponse))
    (request : VisualPlanRequest) : M VisualPlanResponse :=
  create_visual_plan_with _generate_visual_plan_with_gpt _create_visual_plan_template
    request.

(** The start and end texts of a scene's ["M:SS-M:SS"] timestamp. *)
Definition scene_start (sc : SceneData) : string := before "-"%char (timestamp sc).
Definition scene_end (sc : SceneData) : string := after "-"%char (timestamp sc).

End VisualPlanner.

(* ================================================================== *)
(** ** Vocabulary of the properties *)
(* ================================================================== *)

Module Props.
Import PyStr Eff.

(** Total correctness: from every state of the random source the
    computation returns normally with a result satisfying [P]. *)
Definition total {A : Type} (m : M A) (P : A -> Prop) : Prop :=
  forall w, exists a w', m w = (Ok a, w') /\ P a.

(** The scenes run from second [t] to second [t'], each starting where the
    previous one ended. *)
Inductive timed : nat -> list VisualPlanner.SceneData -> nat -> Prop :=
  | timed_nil : forall t, timed t [] t
  | timed_cons : forall t t' t'' sc rest,
      VisualPlanner.timestamp sc = VisualPlanner.fmt_range t t' ->
      timed t' rest t'' ->
      timed t (sc :: rest) t''.

(** Every scene's timestamp start is the previous scene's timestamp end. *)
Definition linked (scs : list VisualPlanner.SceneData) : Prop :=
  forall i a b,
    nth_error scs i = Some a ->
    nth_error scs (S i) = Some b ->
    VisualPlanner.scene_start b = VisualPlanner.scene_end a.

(** The last scene of a sequence. *)
Fixpoint last_scene (scs : list VisualPlanner.SceneData)
    : option VisualPlanner.SceneData :=
  match scs with
  | [] => None
  | [sc] => Some sc
  | _ :: rest => last_scene rest
  end.

(** The list of hook patterns has an entry tagged [t]. *)
Definition emits (t : string) (patterns : list Analyzer.dict) : Prop :=
  exists p, In p patterns /\ Analyzer.dict_get "type" p = Some t.

(** Spec wording: a number 1..10 is one of the whitespace-separated tokens
    of the title. *)
Definition has_standalone_number (title : string) : bool :=
  existsb (fun i => mem (str i) (words title)) (seq 1 10).

(** Every hook pattern carries a ["type"] entry. *)
Definition typed_patterns (patterns : list Analyzer.dict) : Prop :=
  forall p, In p patterns -> exists t, Analyzer.dict_get "type" p = Some t.

(** Every theme contains at least one word. *)
Definition worded_themes (themes : list string) : Prop :=
  forall th, In th themes -> words th <> [].

End Props.

(* ================================================================== *)
(** ** Concrete requests used to exercise the properties *)
(* ================================================================== *)

Module Samples.

(** A script of one segment, everything else left to the defaults. *)
Definition single_sentence_request : VisualPlanner.VisualPlanRequest :=
  VisualPlanner.mkVisualPlanRequest "Just one sentence here" None None None
    "engaging" "TikTok".

(** A generated-plan step that fails. *)
Definition failing_gpt_step
    : VisualPlanner.VisualPlanRequest -> Eff.M (option VisualPlanner.VisualPlanResponse) :=
  fun _ => Eff.raise Eff.ServiceError.

(** One video whose title carries digits inside a word. *)
Definition room_video : Analyzer.VideoData :=
  Analyzer.mkVideoData "Room101 tour" None 1200%Z "2023-05-15" None.

(** A script request whose only theme is the empty text. *)
Definition empty_theme_request : Scriptwriter.ScriptRequest :=
  Scriptwriter.mkScriptRequest [] [] [] [""] "" 60%Z "all" [].

(** A script request with one hook pattern and a theme of blanks. *)
Definition blank_theme_request : Scriptwriter.ScriptRequest :=
  Scriptwriter.mkScriptRequest
    [Analyzer.hook_pattern "shock-based" "You have been doing this wrong"]
    [] [] ["   "] "" 60%Z "tiktok" [].


End Samples.

(* ================================================================== *)
(** ** API glue: niche filtering and the script-to-plan pipeline *)
(* ================================================================== *)

Module Api.
Import PyStr Eff.
Local Open Scope eff_scope.

(** [EnhancedVideoData(VideoData)]: the inherited fields and the
    niche-specific ones. *)
Record EnhancedVideoData : Type := mkEnhancedVideoData {
  base : Analyzer.VideoData;
  problem : option string;
  audience : option string;
  solution : option string;
  emotional_triggers : option string;
  niche : option string;
  sub_niche : option string;
  pain_points : option string;
  value_proposition : option string
}.

Record EnhancedContentAnalysisRequest : Type := mkEnhancedContentAnalysisRequest {
  videos : list EnhancedVideoData;
  analysis_type : string;
  target_niche : option string;
  target_problem : option string;
  target_audience : option string
}.

(** [field and target.lower() in field.lower()] *)
Definition field_matches (target : string) (field : option string) : bool :=
  match field with
  | Some f => truthy f && contains (lower target) (lower f)
  | None => false
  end.

(** [if target: videos = [v for v in videos if v.field and ...]] *)
Definition filter_by (target : option string)
    (field : EnhancedVideoData -> option string)
    (filtered_videos : list EnhancedVideoData) : list EnhancedVideoData :=
  match target with
  | Some t =>
      if truthy t
      then filter (fun v => field_matches t (field v)) filtered_videos
      else filtered_videos
  | None => filtered_videos
  end.

(** The three filtering steps of [analyze_niche_videos]. *)
Definition filtered_videos (request : EnhancedContentAnalysisRequest)
    : list EnhancedVideoData :=
  let filtered_videos := videos request in
  let filtered_videos := filter_by (target_niche request) niche filtered_videos in
  let filtered_videos := filter_by (target_problem request) problem filtered_videos in
  let filtered_videos := filter_by (target_audience request) audience filtered_videos in
  filtered_videos.

(** The videos of the standard request built from the filtered ones. *)
Definition standard_videos (request : EnhancedContentAnalysisRequest)
    : list Analyzer.VideoData :=
  map (fun v => Analyzer.mkVideoData (Analyzer.title (base v))
                  (Analyzer.description (base v)) (Analyzer.views (base v))
                  (Analyzer.publishedAt (base v)) (Analyzer.channel (base v)))
      (filtered_videos request).



Section Pipeline.

Variable _generate_with_gpt : Scriptwriter.prompt -> option string.
Variable _generate_visual_plan_with_gpt
  : VisualPlanner.VisualPlanRequest -> M (option VisualPlanner.VisualPlanResponse).


End Pipeline.


End Api.

(* ================================================================== *)
(** ** Further vocabulary and concrete inputs *)
(* ================================================================== *)

Module MoreProps.
Import PyStr Eff.

(** The four hook tags in the order of the checks. *)
Definition hook_order : list string :=
  ["question-based"; "shock-based"; "number-based"; "personal-story"].

(** The detector behind each tag. *)
Definition detector (tag : string) : Analyzer.VideoData -> bool :=
  if String.eqb tag "question-based" then Analyzer.is_question_hook
  else if String.eqb tag "shock-based" then Analyzer.is_shock_hook
  else if String.eqb tag "number-based" then Analyzer.is_number_hook
  else if String.eqb tag "personal-story" then Analyzer.is_story_hook
  else fun _ => false.

(** Some video of the list passes the detector of the tag. *)
Definition detected (videos : list Analyzer.VideoData) (tag : string) : bool :=
  existsb (detector tag) videos.

(** The list of patterns has an entry with this tag. *)
Definition has_type (tag : string) (patterns : list Analyzer.dict) : bool :=
  existsb (fun p => match Analyzer.dict_get "type" p with
                    | Some t => String.eqb t tag
                    | None => false
                    end) patterns.

(** Every pattern has a ["type"] entry / every theme has a word, as
    tests. *)
Definition typed_patternsb (patterns : list Analyzer.dict) : bool :=
  forallb (fun p => match Analyzer.dict_get "type" p with
                    | Some _ => true
                    | None => false
                    end) patterns.

Definition worded_themesb (themes : list string) : bool :=
  forallb (fun th => match words th with [] => false | _ :: _ => true end) themes.

(** The external service answers every prompt with a non-empty text. *)
Definition always_answers (gpt : Scriptwriter.prompt -> option string) : Prop :=
  forall p, exists s, gpt p = Some s /\ truthy s = true.

(** The conjunction of the three target tests of the niche filter. *)
Definition passes_targets (request : Api.EnhancedContentAnalysisRequest)
    (v : Api.EnhancedVideoData) : bool :=
  let test target field :=
    match target with
    | Some t => if truthy t then Api.field_matches t field else true
    | None => true
    end in
  test (Api.target_niche request) (Api.niche v)
  && test (Api.target_problem request) (Api.problem v)
  && test (Api.target_audience request) (Api.audience v).

(** [l] has no repeated entry / every entry of [l] is in [l'], as tests. *)
Fixpoint nodupb (l : list string) : bool :=
  match l with
  | [] => true
  | x :: l' => negb (mem x l') && nodupb l'
  end.

Definition inclb (l l' : list string) : bool := forallb (fun x => mem x l') l.

(** The effect pool of a platform: [self.visual_effects.get(platform,
    self.visual_effects["TikTok"])]. *)
Definition effect_pool (platform : string) : list string :=
  table_get platform VisualPlanner.visual_effects_table VisualPlanner.tiktok_effects.

(** The timestamps of [count] scenes of [duration] seconds laid end to end
    from second [start]. *)
Fixpoint stamps (duration start count : nat) : list string :=
  match count with
  | O => []
  | S k =>
      VisualPlanner.fmt_range start (start + duration)
      :: stamps duration (start + duration) k
  end.

(** What every scene of a template plan carries. *)
Definition annotated (platform : string) (sc : VisualPlanner.SceneData) : Prop :=
  List.length (VisualPlanner.stock_footage sc) = 3
  /\ In (VisualPlanner.transition sc) VisualPlanner.transitions
  /\ NoDup (VisualPlanner.visual_effects sc)
  /\ incl (VisualPlanner.visual_effects sc) (effect_pool platform)
  /\ 1 <= List.length (VisualPlanner.visual_effects sc) <= 2.

End MoreProps.

Module MoreSamples.

Definition habits_video : Analyzer.VideoData :=
  Analyzer.mkVideoData "5 Morning Habits That Changed My Life"
    (Some "I tried these 5 morning habits for 30 days and here's what happened...")
    1500000%Z "2023-05-15" (Some "ProductivityGuru").

Definition phone_video : Analyzer.VideoData :=
  Analyzer.mkVideoData "You've Been Charging Your Phone Wrong"
    (Some "This simple trick will make your battery last twice as long!")
    2300000%Z "2023-06-02" (Some "TechHacks").

(** A request with two patterns, one of a tag unknown to the template
    table. *)
Definition two_pattern_request : Scriptwriter.ScriptRequest :=
  Scriptwriter.mkScriptRequest
    [Analyzer.hook_pattern "curiosity-gap" "Wait for it";
     Analyzer.hook_pattern "number-based" "3 tips"]
    ["Fast cuts"] ["Open loops"] ["Time management hacks"; "Phone tricks"]
    "summary" 60%Z "tiktok" [].

(** The same request with other values in the fields the template path
    does not read. *)
Definition two_pattern_request_variant : Scriptwriter.ScriptRequest :=
  Scriptwriter.mkScriptRequest
    [Analyzer.hook_pattern "curiosity-gap" "Wait for it";
     Analyzer.hook_pattern "number-based" "3 tips"]
    [] ["Direct questions"; "Polls"] ["Time management hacks"; "Phone tricks"]
    "another summary" 15%Z "tiktok" [("problems", ["no time"])].

(** A service that answers every prompt with the same line. *)
Definition echo_gpt : Scriptwriter.prompt -> option string :=
  fun _ => Some "Stop scrolling.".

(** A service that answers the hook prompt only: the body and closing
    prompts fail. *)
Definition hook_only_gpt : Scriptwriter.prompt -> option string :=
  fun p =>
    match p with
    | Scriptwriter.HookPrompt _ _ => Some "Wait until you see this."
    | _ => None
    end.

(** A request whose pattern has no ["type"] entry. *)
Definition untyped_pattern : Analyzer.dict := [("example", "Wait for it")].

Definition fitness_video : Api.EnhancedVideoData :=
  Api.mkEnhancedVideoData habits_video (Some "no energy") (Some "Busy parents")
    None None (Some "Home Fitness") None None None.

Definition plain_video : Api.EnhancedVideoData :=
  Api.mkEnhancedVideoData phone_video None None None None None None None None.

Definition fitness_request : Api.EnhancedContentAnalysisRequest :=
  Api.mkEnhancedContentAnalysisRequest [plain_video; fitness_video] "full"
    (Some "FITNESS") (Some "") None.

End MoreSamples.

(* ================================================================== *)
(** ** Facts about the string primitives *)
(* ================================================================== *)

Module PyStrFacts.
Import PyStr.

Lemma append_empty_r (s : string) : s ++ "" = s.
Proof. induction s as [|c s IH]; simpl; [reflexivity | now rewrite IH]. Qed.

Lemma append_assoc (a b c : string) : (a ++ b) ++ c = a ++ (b ++ c).
Proof. induction a as [|x a IH]; simpl; [reflexivity | now rewrite IH]. Qed.

Lemma length_append (a b : string) :
  String.length (a ++ b) = String.length a + String.length b.
Proof. induction a as [|x a IH]; simpl; [reflexivity | now rewrite IH]. Qed.

Lemma length_take (n : nat) (s : string) : String.length (take n s) <= n.
Proof.
  revert s; induction n as [|n IH]; intros [|c s]; simpl; try lia.
  specialize (IH s); lia.
Qed.

(** A text that does not contain the separator is a single piece. *)
Lemma split_go_without_sep (sep : string) :
  forall s cur, contains sep s = false -> split_go sep 0 cur s = [cur ++ s].
Proof.
  induction s as [|c s IH]; intros cur H.
  - simpl. now rewrite append_empty_r.
  - cbn [contains] in H. apply orb_false_iff in H as [H1 H2].
    cbn [split_go]. rewrite H1, (IH _ H2), append_assoc. reflexivity.
Qed.

Lemma split_without_sep (sep s : string) :
  contains sep s = false -> split sep s = [s].
Proof. intros H. unfold split. now rewrite split_go_without_sep. Qed.

Lemma lacks_append (c : ascii) (a b : string) :
  lacks c (a ++ b) = lacks c a && lacks c b.
Proof.
  induction a as [|x a IH]; simpl; [reflexivity|].
  rewrite IH. now rewrite andb_assoc.
Qed.

Lemma before_append (c : ascii) (a b : string) :
  lacks c a = true -> before c (a ++ String c b) = a.
Proof.
  induction a as [|x a IH]; simpl; intros H.
  - now rewrite Ascii.eqb_refl.
  - apply andb_true_iff in H as [H1 H2].
    apply negb_true_iff in H1. rewrite H1. now rewrite IH.
Qed.

Lemma after_append (c : ascii) (a b : string) :
  lacks c a = true -> after c (a ++ String c b) = b.
Proof.
  induction a as [|x a IH]; simpl; intros H.
  - now rewrite Ascii.eqb_refl.
  - apply andb_true_iff in H as [H1 H2].
    apply negb_true_iff in H1. rewrite H1. now apply IH.
Qed.

(** Decimal numerals consist of digits. *)
Lemma uint_lacks_dash (u : Decimal.uint) :
  lacks "-"%char (NilEmpty.string_of_uint u) = true.
Proof. induction u; simpl; auto. Qed.

Lemma str_lacks_dash (n : nat) : lacks "-"%char (str n) = true.
Proof. apply uint_lacks_dash. Qed.

Lemma fmt_clock_lacks_dash (t : nat) : lacks "-"%char (fmt_clock t) = true.
Proof.
  unfold fmt_clock, fmt02.
  rewrite lacks_append, str_lacks_dash. cbn [andb].
  change (":" ++ ?x) with (String ":"%char x). cbn [lacks].
  destruct (t mod 60 <? 10)%nat.
  - change ("0" ++ ?x) with (String "0"%char x). cbn [lacks].
    now rewrite str_lacks_dash.
  - now rewrite str_lacks_dash.
Qed.

End PyStrFacts.

(* ================================================================== *)
(** ** Facts about the effects *)
(* ================================================================== *)

Module EffFacts.
Import Eff Props.

Lemma total_ret {A} (a : A) (P : A -> Prop) : P a -> total (ret a) P.
Proof. intros H w. exists a, w. now split. Qed.

Lemma total_bind {A B} (m : M A) (k : A -> M B) (P : A -> Prop) (Q : B -> Prop) :
  total m P -> (forall a, P a -> total (k a) Q) -> total (bind m k) Q.
Proof.
  intros Hm Hk w. destruct (Hm w) as (a & w1 & E & Pa).
  destruct (Hk a Pa w1) as (b & w2 & E2 & Qb).
  exists b, w2. unfold bind. rewrite E. now split.
Qed.

Lemma total_weaken {A} (m : M A) (P Q : A -> Prop) :
  total m P -> (forall a, P a -> Q a) -> total m Q.
Proof.
  intros Hm HPQ w. destruct (Hm w) as (a & w1 & E & Pa).
  exists a, w1. split; auto.
Qed.

Lemma total_draw : total draw (fun _ => True).
Proof. intros [|r w]; simpl; eauto. Qed.

Lemma bind_ok {A B} (m : M A) (k : A -> M B) w a w' :
  m w = (Ok a, w') -> bind m k w = k a w'.
Proof. intros E. unfold bind. now rewrite E. Qed.

Lemma bind_raise {A B} (m : M A) (k : A -> M B) w e w' :
  m w = (Raise e, w') -> bind m k w = (Raise e, w').
Proof. intros E. unfold bind. now rewrite E. Qed.

(** [random.choice] on a non-empty list returns one of its elements. *)
Lemma total_choice {A} (l : list A) :
  l <> [] -> total (choice l) (fun x => In x l).
Proof.
  intros Hl. destruct l as [|x l]; [congruence|].
  unfold choice. eapply total_bind; [apply total_draw|].
  intros r _.
  assert (Hlt : r mod List.length (x :: l) < List.length (x :: l))
    by (apply Nat.mod_upper_bound; simpl; lia).
  destruct (nth_error (x :: l) (r mod List.length (x :: l))) as [y|] eqn:E.
  - apply total_ret. eapply nth_error_In; eauto.
  - apply nth_error_None in E. lia.
Qed.

Lemma pick_some {A} (l : list A) :
  forall i, i < List.length l ->
  exists x rest, pick i l = Some (x, rest)
                 /\ List.length rest = List.length l - 1 /\ In x l
                 /\ (forall y, In y rest -> In y l).
Proof.
  induction l as [|a l IH]; intros i Hi; simpl in Hi; [lia|].
  destruct i as [|j].
  - exists a, l. simpl. repeat split; auto; lia.
  - destruct (IH j) as (x & rest & E & HL & Hx & Hr); [lia|].
    exists x, (a :: rest). simpl. rewrite E.
    repeat split; auto.
    + destruct l; simpl in *; lia.
    + intros y [->|Hy]; auto.
Qed.

(** [random.sample(l, k)] with [k <= len(l)] returns [k] elements of [l]. *)
Lemma total_sample {A} :
  forall k (l : list A), k <= List.length l ->
  total (sample l k) (fun xs => List.length xs = k /\ forall x, In x xs -> In x l).
Proof.
  induction k as [|k IH]; intros l Hk.
  - apply total_ret. split; [reflexivity | intros x []].
  - destruct l as [|a l]; [simpl in Hk; lia|].
    cbn [sample]. eapply total_bind; [apply total_draw|].
    intros r _.
    destruct (pick_some (a :: l) (r mod List.length (a :: l)))
      as (x & rest & E & HL & Hx & Hr).
    { apply Nat.mod_upper_bound; simpl; lia. }
    rewrite E.
    eapply total_bind.
    + apply IH. rewrite HL. simpl in *. lia.
    + intros xs [Hlen Hin]. apply total_ret. split.
      * simpl. now rewrite Hlen.
      * intros y [<-|Hy]; auto.
Qed.

End EffFacts.

(* ================================================================== *)
(** ** VisualPlanner: shape of the template plan *)
(* ================================================================== *)

Module VisualPlannerFacts.
Import PyStr Eff Props EffFacts PyStrFacts VisualPlanner.

Lemma first_match_some {A} (table : list (string * A)) (text : string) (v : A) :
  first_match table text = Some v ->
  exists k, In (k, v) table /\ contains k text = true.
Proof.
  induction table as [|[k x] table IH]; simpl; [discriminate|].
  destruct (contains k text) eqn:E.
  - intros [= <-]. exists k. auto.
  - intros H. destruct (IH H) as (k' & Hin & Hc). exists k'. auto.
Qed.

Lemma first_match_none {A} (table : list (string * A)) (text : string) :
  first_match table text = None <->
  forall k v, In (k, v) table -> contains k text = false.
Proof.
  induction table as [|[k x] table IH]; simpl.
  - split; [intros _ k v [] | reflexivity].
  - destruct (contains k text) eqn:E.
    + split; [discriminate|]. intros H.
      rewrite (H k x) in E; [discriminate | now left].
    + rewrite IH. split.
      * intros H k' v [[= <- <-]|Hin]; eauto.
      * intros H k' v Hin. eauto.
Qed.

(** The value found is that of the first key of the table that occurs in
    the text. *)
Lemma first_match_first {A} (table : list (string * A)) (text : string) (v : A) :
  first_match table text = Some v <->
  exists pre k post,
    table = (pre ++ (k, v) :: post)%list /\ contains k text = true
    /\ forall k' v', In (k', v') pre -> contains k' text = false.
Proof.
  induction table as [|[k x] table IH]; simpl.
  - split; [discriminate|]. intros (pre & k & post & E & _). destruct pre; discriminate.
  - destruct (contains k text) eqn:E.
    + split.
      * intros [= <-]. exists [], k, table. repeat split; auto. intros ? ? [].
      * intros ([|[k0 v0] pre] & k1 & post & Et & Hc & Hpre).
        -- simpl in Et. now inversion Et.
        -- simpl in Et. injection Et as -> -> ->.
           rewrite (Hpre k0 v0) in E; [discriminate | now left].
    + rewrite IH. split.
      * intros (pre & k1 & post & -> & Hc & Hpre).
        exists ((k, x) :: pre), k1, post. repeat split; auto.
        intros k' v' [[= <- <-]|Hin]; eauto.
      * intros ([|[k0 v0] pre] & k1 & post & Et & Hc & Hpre).
        -- simpl in Et. injection Et as -> -> ->. congruence.
        -- simpl in Et. injection Et as -> -> ->.
           exists pre, k1, post. repeat split; auto.
           intros k' v' Hin. apply (Hpre k' v'). now right.
Qed.

Lemma niche_footage_three (k : string) (v : list string) :
  In (k, v) niche_footage -> List.length v = 3.
Proof.
  unfold niche_footage. intros H.
  repeat (destruct H as [H|H]; [inversion H; reflexivity|]).
  destruct H.
Qed.

Lemma firstn_three_app (s extra : list string) :
  List.length s = 3 -> firstn 3 (s ++ extra)%list = s.
Proof.
  intros H. rewrite <- H at 1. rewrite firstn_app, Nat.sub_diag, firstn_all.
  cbn [firstn]. apply app_nil_r.
Qed.

(** Footage suggestions: three of them, and the matched niche's own list
    when a niche keyword matches. *)
Lemma stock_footage_total (segment niche : string) :
  total (_suggest_stock_footage segment niche)
    (fun l => List.length l = 3
              /\ match first_match niche_footage (lower niche) with
                 | Some suggestions => l = suggestions
                 | None => True
                 end).
Proof.
  unfold _suggest_stock_footage. cbv zeta.
  destruct (first_match niche_footage (lower niche)) as [s|] eqn:E.
  - destruct (first_match_some _ _ _ E) as (k & Hin & _).
    pose proof (niche_footage_three _ _ Hin) as Hs.
    eapply total_bind with (P := fun sp => firstn 3 sp = s).
    + destruct (segment_keywords segment) as [|kw kws].
      * apply total_ret. apply firstn_all2. lia.
      * eapply total_bind; [apply total_choice; discriminate|].
        intros x _. apply total_ret. now apply firstn_three_app.
    + intros sp Hsp. apply total_ret. rewrite Hsp. auto.
  - destruct (segment_keywords segment) as [|kw kws] eqn:K.
    + apply total_ret. split; [reflexivity | exact I].
    + eapply total_bind; [apply total_sample; apply Nat.le_min_r|].
      intros xs [Hlen _]. apply total_ret. split; [|exact I].
      rewrite length_app, length_firstn, length_map, Hlen.
      change (List.length default_footage) with 3.
      simpl List.length. lia.
Qed.

Lemma visual_effects_total (platform scene_type : string) :
  total (_suggest_visual_effects platform scene_type) (fun _ => True).
Proof.
  unfold _suggest_visual_effects. cbv zeta.
  destruct (String.eqb scene_type "hook");
    [|destruct (String.eqb scene_type "cta")];
    (eapply total_weaken; [apply total_sample; apply Nat.le_min_r | auto]).
Qed.

Lemma editing_tips_total (platform : string) :
  total (_suggest_editing_tips platform) (fun _ => True).
Proof.
  unfold _suggest_editing_tips. cbv zeta.
  eapply total_weaken; [apply total_sample; apply Nat.le_min_r | auto].
Qed.

(** The content loop: one scene per segment, each [duration] seconds long,
    laid end to end from the running total. *)
Lemma content_scenes_total (platform niche : string) (duration : nat) :
  forall segments t,
    total (content_scenes platform niche duration segments t)
      (fun r => timed t (fst r) (snd r)
                /\ snd r = t + duration * List.length segments
                /\ map script_segment (fst r) = segments).
Proof.
  induction segments as [|segment rest IH]; intros t.
  - apply total_ret. simpl. repeat split; [constructor | lia].
  - cbn [content_scenes]. cbv zeta.
    eapply total_bind; [apply stock_footage_total|]. intros footage _.
    eapply total_bind; [apply visual_effects_total|]. intros effects _.
    eapply total_bind; [apply total_choice; discriminate|]. intros trans _.
    eapply total_bind; [apply IH|]. intros [more total] (H1 & H2 & H3).
    apply total_ret. cbn [fst snd] in *. repeat split.
    + econstructor; [reflexivity | exact H1].
    + rewrite H2. simpl List.length. lia.
    + simpl. now rewrite H3.
Qed.

Lemma or_else_truthy (o : option string) (d : string) :
  truthy d = true -> truthy (or_else o d) = true.
Proof.
  intros H. destruct o as [s|]; simpl; auto.
  destruct (truthy s) eqn:E; auto.
Qed.

(** What the template path returns, for every state of the random source. *)
Lemma template_shape (request : VisualPlanRequest) :
  total (_create_visual_plan_template request)
    (fun plan =>
       exists hook_scene content cta_scene t,
         scenes plan = (hook_scene :: content ++ [cta_scene])%list
         /\ timestamp hook_scene = "0:00-0:05"
         /\ script_segment hook_scene = request_hook request
         /\ timed 5 content t
         /\ t = 5 + segment_duration (script_segments (script request))
                    * List.length (content_segments (script_segments (script request)))
         /\ map script_segment content
            = content_segments (script_segments (script request))
         /\ timestamp cta_scene = fmt_range t (t + 5)
         /\ script_segment cta_scene = request_cta request
         /\ transition cta_scene = "Fade"
         /\ total_duration plan = fmt_clock (t + 5)
         /\ music_recommendation plan
            = _suggest_music (request_niche request) (tone request)
         /\ voiceover_style plan
            = _suggest_voiceover (request_niche request) (tone request)).
Proof.
  unfold _create_visual_plan_template. cbv zeta.
  eapply total_bind; [apply stock_footage_total|]. intros hf _.
  eapply total_bind; [apply visual_effects_total|]. intros he _.
  eapply total_bind; [apply total_choice; discriminate|]. intros ht _.
  eapply total_bind; [apply content_scenes_total|].
  intros [content t] (H1 & H2 & H3). cbn [fst snd] in *.
  assert (Hc : truthy (request_cta request) = true)
    by (apply or_else_truthy; reflexivity).
  rewrite Hc.
  eapply total_bind.
  { eapply total_bind; [apply stock_footage_total|]. intros cf _.
    eapply total_bind; [apply visual_effects_total|]. intros ce _.
    apply total_ret.
    instantiate (1 := fun r =>
      exists cta_scene, fst r = [cta_scene] /\ snd r = t + 5
        /\ timestamp cta_scene = fmt_range t (t + 5)
        /\ script_segment cta_scene = request_cta request
        /\ transition cta_scene = "Fade").
    cbn [fst snd]. eexists. repeat split. }
  intros [closing total] (cta_scene & E1 & E2 & E3 & E4 & E5). cbn [fst snd] in *.
  subst closing total.
  eapply total_bind; [apply total_sample; apply Nat.le_min_r|]. intros fp _.
  eapply total_bind; [apply editing_tips_total|]. intros tips _.
  apply total_ret. cbn [scenes total_duration music_recommendation voiceover_style].
  eexists _, content, cta_scene, t. repeat split; auto.
Qed.

Lemma timed_app (a b c : nat) (l1 l2 : list SceneData) :
  timed a l1 b -> timed b l2 c -> timed a (l1 ++ l2)%list c.
Proof.
  induction 1; intros H2; simpl; auto.
  econstructor; eauto.
Qed.

Lemma scene_start_range (sc : SceneData) (a b : nat) :
  timestamp sc = fmt_range a b -> scene_start sc = fmt_clock a.
Proof.
  intros H. unfold scene_start. rewrite H. unfold fmt_range.
  change ("-" ++ ?x) with (String "-"%char x).
  apply before_append, fmt_clock_lacks_dash.
Qed.

Lemma scene_end_range (sc : SceneData) (a b : nat) :
  timestamp sc = fmt_range a b -> scene_end sc = fmt_clock b.
Proof.
  intros H. unfold scene_end. rewrite H. unfold fmt_range.
  change ("-" ++ ?x) with (String "-"%char x).
  apply after_append, fmt_clock_lacks_dash.
Qed.

(** A timed sequence is linked, starts at its first second and ends at its
    last. *)
Lemma timed_linked (t t' : nat) (scs : list SceneData) :
  timed t scs t' ->
  linked scs
  /\ (forall sc rest, scs = sc :: rest -> scene_start sc = fmt_clock t)
  /\ (scs <> [] -> exists sc, last_scene scs = Some sc /\ scene_end sc = fmt_clock t').
Proof.
  induction 1 as [t | t t' t'' sc rest Hts Hrest (IH1 & IH2 & IH3)].
  - repeat split.
    + intros [|i] a b H; discriminate.
    + intros sc rest H; discriminate.
    + congruence.
  - repeat split.
    + intros [|i] a b Ha Hb.
      * simpl in Ha, Hb. injection Ha as <-.
        destruct rest as [|b' rest']; [discriminate|].
        simpl in Hb. injection Hb as <-.
        rewrite (IH2 _ _ eq_refl). symmetry. eapply scene_end_range; eauto.
      * simpl in Ha, Hb. eapply IH1; eauto.
    + intros sc' rest' [= <- <-]. eapply scene_start_range; eauto.
    + intros _. destruct rest as [|b' rest'].
      * inversion Hrest; subst. exists sc. split; [reflexivity|].
        eapply scene_end_range; eauto.
      * destruct IH3 as (l & Hl & He); [discriminate|].
        exists l. split; auto.
Qed.

End VisualPlannerFacts.

(* ================================================================== *)
(** ** VisualPlanner: properties of the plans *)
(* ================================================================== *)

Module VisualPlannerSpec.
Import PyStr Eff Props EffFacts PyStrFacts VisualPlanner VisualPlannerFacts.

(** C1. For every request and every state of the random source the template
    path returns a plan whose scene sequence is contiguous: the first
    scene starts at "0:00", every later scene starts at the timestamp end
    of the scene before it, and [total_duration] is the timestamp end of
    the last scene. *)
Theorem template_scenes_contiguous (request : VisualPlanRequest) (w : rng) :
  exists plan w' first rest final,
    _create_visual_plan_template request w = (Ok plan, w')
    /\ scenes plan = first :: rest
    /\ scene_start first = "0:00"
    /\ linked (scenes plan)
    /\ last_scene (scenes plan) = Some final
    /\ total_duration plan = scene_end final.
Proof.
  destruct (template_shape request w)
    as (plan & w' & E & hs & content & cs & t & Hsc & Hhs & _ & Hct & _ & _
        & Hcs & _ & _ & Htot & _).
  assert (T : timed 0 (scenes plan) (t + 5)).
  { rewrite Hsc. apply timed_cons with (t' := 5); [exact Hhs|].
    apply timed_app with (b := t); [exact Hct|].
    apply timed_cons with (t' := t + 5); [exact Hcs | constructor]. }
  destruct (timed_linked _ _ _ T) as (HL & HS & HE).
  destruct HE as (final & Hlast & Hend); [rewrite Hsc; discriminate|].
  exists plan, w', hs, (content ++ [cs])%list, final.
  repeat split; auto.
  - apply (HS hs (content ++ [cs])%list Hsc).
  - now rewrite Htot, Hend.
Qed.

(** C3. Whatever the generated-plan step and the template step do, the
    boundary returns normally: the plan of the attempt when the attempt
    returns, and when the attempt raises, the fallback plan, whose single
    scene spans "0:00-0:30", carries the whole script and lists the generic
    footage, and whose total duration is "0:30" with the generic tips.  In
    particular [create_visual_plan] never raises. *)
Theorem boundary_never_raises
    (gpt_step : VisualPlanRequest -> M (option VisualPlanResponse))
    (template_step : VisualPlanRequest -> M VisualPlanResponse)
    (request : VisualPlanRequest) (w : rng) :
  match plan_attempt gpt_step template_step request w with
  | (Ok plan, w') =>
      create_visual_plan_with gpt_step template_step request w = (Ok plan, w')
  | (Raise _, w') =>
      exists scene,
        create_visual_plan_with gpt_step template_step request w
          = (Ok (_create_fallback_plan request), w')
        /\ scenes (_create_fallback_plan request) = [scene]
        /\ timestamp scene = "0:00-0:30"
        /\ script_segment scene = script request
        /\ stock_footage scene = ["Person talking to camera"; "Relevant B-roll"]
        /\ total_duration (_create_fallback_plan request) = "0:30"
        /\ editing_tips (_create_fallback_plan request)
           = ["Keep it simple"; "Focus on clear audio"]
  end
  /\ exists plan w', create_visual_plan gpt_step request w = (Ok plan, w').
Proof.
  split.
  - unfold create_visual_plan_with, try_except.
    destruct (plan_attempt gpt_step template_step request w) as [[plan|e] w'].
    + reflexivity.
    + eexists. repeat split.
  - unfold create_visual_plan, create_visual_plan_with, try_except.
    destruct (plan_attempt gpt_step _create_visual_plan_template request w)
      as [[plan|e] w']; unfold ret; eauto.
Qed.

(** A failing generated-plan step on the sample request ends in the
    fallback plan. *)
Example failing_step_falls_back :
  create_visual_plan Samples.failing_gpt_step Samples.single_sentence_request [4; 2]
  = (Ok (_create_fallback_plan Samples.single_sentence_request), [4; 2]).
Proof. reflexivity. Qed.

(** C5, as the code has it. A script with no blank line and no ". " yields
    three scenes: the hook scene at "0:00-0:05", one content scene that
    carries the whole script at "0:05-0:15", and the closing scene at
    "0:15-0:20" with the "Fade" transition; the total duration is "0:20". *)
Theorem single_segment_plan (request : VisualPlanRequest) (w : rng) :
  contains blank_line (script request) = false ->
  contains ". " (script request) = false ->
  exists plan w' hook_scene content_scene cta_scene,
    _create_visual_plan_template request w = (Ok plan, w')
    /\ scenes plan = [hook_scene; content_scene; cta_scene]
    /\ timestamp hook_scene = "0:00-0:05"
    /\ timestamp content_scene = "0:05-0:15"
    /\ script_segment content_scene = script request
    /\ timestamp cta_scene = "0:15-0:20"
    /\ script_segment cta_scene = request_cta request
    /\ transition cta_scene = "Fade"
    /\ total_duration plan = "0:20".
Proof.
  intros Hb Hd.
  destruct (template_shape request w)
    as (plan & w' & E & hs & content & cs & t & Hsc & Hhs & _ & Hct & Ht & Hmap
        & Hcs & Hseg & Hfade & Htot & _).
  assert (Hsegs : script_segments (script request) = [script request]).
  { unfold script_segments. rewrite Hb. now apply split_without_sep. }
  rewrite Hsegs in *.
  change (content_segments [script request]) with [script request] in *.
  change (segment_duration [script request]) with 10 in Ht.
  simpl in Ht. subst t.
  destruct content as [|c [|c' more]]; try discriminate.
  injection Hmap as Hc.
  inversion Hct as [|? ? ? ? ? Hts Hnil]; subst.
  inversion Hnil; subst.
  exists plan, w', hs, c, cs. repeat split; auto.
Qed.

Lemma single_segment_plan_witness :
  exists plan w' hook_scene content_scene cta_scene,
    _create_visual_plan_template Samples.single_sentence_request [] = (Ok plan, w')
    /\ scenes plan = [hook_scene; content_scene; cta_scene]
    /\ timestamp hook_scene = "0:00-0:05"
    /\ timestamp content_scene = "0:05-0:15"
    /\ script_segment content_scene = script Samples.single_sentence_request
    /\ timestamp cta_scene = "0:15-0:20"
    /\ script_segment cta_scene = request_cta Samples.single_sentence_request
    /\ transition cta_scene = "Fade"
    /\ total_duration plan = "0:20".
Proof.
  apply (single_segment_plan Samples.single_sentence_request []); reflexivity.
Defined.

(** C5 as stated fails: the one-segment script of the sample request has no
    blank line and no ". ", yet its plan has three scenes, not one, and its
    total duration is "0:20", not "0:05". *)
Lemma single_segment_counterexample :
  contains blank_line (script Samples.single_sentence_request) = false
  /\ contains ". " (script Samples.single_sentence_request) = false
  /\ exists plan w',
       _create_visual_plan_template Samples.single_sentence_request [] = (Ok plan, w')
       /\ List.length (scenes plan) = 3
       /\ List.length (scenes plan) <> 1
       /\ total_duration plan = "0:20"
       /\ total_duration plan <> "0:05".
Proof.
  split; [reflexivity|]. split; [reflexivity|].
  eexists _, _. split; [vm_compute; reflexivity|].
  cbn [scenes total_duration List.length]. repeat split; discriminate.
Qed.

(** In both tone tables every modifier is a non-empty text, so the
    truthiness test on the modifier tells whether a tone keyword matched. *)
Lemma tone_adjectives_truthy (k v : string) :
  In (k, v) tone_adjectives -> truthy v = true.
Proof.
  unfold tone_adjectives. intros H.
  repeat (destruct H as [H|H]; [inversion H; reflexivity|]).
  destruct H.
Qed.

Lemma tone_modifiers_truthy (k v : string) :
  In (k, v) tone_modifiers -> truthy v = true.
Proof.
  unfold tone_modifiers. intros H.
  repeat (destruct H as [H|H]; [inversion H; reflexivity|]).
  destruct H.
Qed.

(** C9. The music and voiceover selections are functions of the niche and
    tone texts alone: the base style of the first niche keyword that occurs
    in the lower-cased niche (else the generic base), combined with the
    modifier of the first tone keyword that occurs in the lower-cased tone
    when there is one; and two runs of the template path on the same
    request, from any two states of the random source, carry the same
    music and voiceover texts. *)
Theorem music_and_voiceover_deterministic
    (niche_text tone_text : string) (request : VisualPlanRequest) (w1 w2 : rng) :
  _suggest_music niche_text tone_text
  = match first_match tone_adjectives (lower tone_text) with
    | Some adjective =>
        capitalize adjective ++ " "
        ++ lower (first_match_or niche_music (lower niche_text) "Trendy background music")
    | None => first_match_or niche_music (lower niche_text) "Trendy background music"
    end
  /\ _suggest_voiceover niche_text tone_text
     = match first_match tone_modifiers (lower tone_text) with
       | Some modifier =>
           first_match_or niche_voice (lower niche_text) "Engaging and conversational"
           ++ " " ++ modifier
       | None => first_match_or niche_voice (lower niche_text) "Engaging and conversational"
       end
  /\ exists p1 p2 w1' w2',
       _create_visual_plan_template request w1 = (Ok p1, w1')
       /\ _create_visual_plan_template request w2 = (Ok p2, w2')
       /\ music_recommendation p1 = music_recommendation p2
       /\ voiceover_style p1 = voiceover_style p2
       /\ music_recommendation p1
          = _suggest_music (request_niche request) (tone request)
       /\ voiceover_style p1
          = _suggest_voiceover (request_niche request) (tone request).
Proof.
  split; [|split].
  - unfold _suggest_music. cbv zeta.
    generalize (first_match_or niche_music (lower niche_text) "Trendy background music").
    intros base. unfold first_match_or.
    destruct (first_match tone_adjectives (lower tone_text)) as [adj|] eqn:E.
    + destruct (first_match_some _ _ _ E) as (k & Hin & _).
      now rewrite (tone_adjectives_truthy _ _ Hin).
    + reflexivity.
  - unfold _suggest_voiceover. cbv zeta.
    generalize (first_match_or niche_voice (lower niche_text) "Engaging and conversational").
    intros base. unfold first_match_or.
    destruct (first_match tone_modifiers (lower tone_text)) as [md|] eqn:E.
    + destruct (first_match_some _ _ _ E) as (k & Hin & _).
      now rewrite (tone_modifiers_truthy _ _ Hin).
    + reflexivity.
  - destruct (template_shape request w1)
      as (p1 & w1' & E1 & ? & ? & ? & ? & _ & _ & _ & _ & _ & _ & _ & _ & _ & _ & M1 & V1).
    destruct (template_shape request w2)
      as (p2 & w2' & E2 & ? & ? & ? & ? & _ & _ & _ & _ & _ & _ & _ & _ & _ & _ & M2 & V2).
    exists p1, p2, w1', w2'. repeat split; auto; congruence.
Qed.

(** C10. The footage suggestion returns exactly three suggestions for every
    segment, niche and state of the random source; and when a niche keyword
    occurs in the lower-cased niche, the result is the three-item list of
    the first such keyword of the table, without any keyword-derived
    suggestion. *)
Theorem stock_footage_three (segment niche : string) (w : rng) :
  exists l w',
    _suggest_stock_footage segment niche w = (Ok l, w')
    /\ List.length l = 3
    /\ (forall pre k v post,
          niche_footage = (pre ++ (k, v) :: post)%list ->
          contains k (lower niche) = true ->
          (forall k' v', In (k', v') pre -> contains k' (lower niche) = false) ->
          l = v /\ List.length v = 3).
Proof.
  destruct (stock_footage_total segment niche w) as (l & w' & E & Hlen & Hm).
  exists l, w'. repeat split; auto.
  - assert (F : first_match niche_footage (lower niche) = Some v)
      by (apply first_match_first; eauto 8).
    rewrite F in Hm. now subst.
  - assert (F : first_match niche_footage (lower niche) = Some v)
      by (apply first_match_first; eauto 8).
    rewrite F in Hm. now subst.
Qed.

End VisualPlannerSpec.

(* ================================================================== *)
(** ** Analyzer: properties of the template analysis *)
(* ================================================================== *)

Module AnalyzerSpec.
Import PyStr Eff Props Analyzer.

Lemma is_number_hook_iff (v : VideoData) :
  is_number_hook v = true <->
  exists i, 1 <= i <= 10 /\ contains (str i) (title v) = true.
Proof.
  unfold is_number_hook. rewrite existsb_exists. split.
  - intros (i & Hin & Hc). apply in_seq in Hin. exists i. split; [lia | exact Hc].
  - intros (i & Hi & Hc). exists i. split; [apply in_seq; lia | exact Hc].
Qed.

(** The head of a filtered list is the first element that passes. *)
Lemma filter_head {A} (f : A -> bool) (l : list A) (v : A) (rest : list A) :
  filter f l = v :: rest ->
  exists pre post,
    l = (pre ++ v :: post)%list /\ (forall u, In u pre -> f u = false) /\ f v = true.
Proof.
  induction l as [|a l IH]; simpl; [discriminate|].
  destruct (f a) eqn:E.
  - intros [= <- _]. exists [], l. repeat split; auto. intros u [].
  - intros H. destruct (IH H) as (pre & post & -> & Hpre & Hv).
    exists (a :: pre), post. repeat split; auto.
    intros u [<-|Hu]; auto.
Qed.

Lemma filter_nonempty {A} (f : A -> bool) (l : list A) :
  filter f l <> [] <-> exists v, In v l /\ f v = true.
Proof.
  split.
  - destruct (filter f l) as [|v rest] eqn:E; [congruence|]. intros _.
    assert (H : In v (filter f l)) by (rewrite E; now left).
    apply filter_In in H. eauto.
  - intros (v & Hin & Hf) E.
    assert (H : In v (filter f l)) by (apply filter_In; auto).
    rewrite E in H. destruct H.
Qed.

Lemma in_emit (t : string) (hooks : list VideoData) (p : dict) :
  In p (emit t hooks) ->
  exists v rest, hooks = v :: rest /\ p = hook_pattern t (title v).
Proof.
  destruct hooks as [|v rest]; simpl; [intros []|].
  intros [<-|[]]. eauto.
Qed.

Lemma hook_pattern_type (t ex : string) : dict_get "type" (hook_pattern t ex) = Some t.
Proof. reflexivity. Qed.

Lemma hook_pattern_example (t ex : string) :
  dict_get "example" (hook_pattern t ex) = Some ex.
Proof. reflexivity. Qed.

(** The entries tagged "number-based" are those of the third detector. *)
Lemma number_entry (videos : list VideoData) (p : dict) :
  In p (_analyze_hooks videos) ->
  dict_get "type" p = Some "number-based" ->
  In p (emit "number-based" (filter is_number_hook videos)).
Proof.
  unfold _analyze_hooks. intros Hin Ht.
  repeat (apply in_app_or in Hin as [Hin|Hin]); auto;
    destruct (in_emit _ _ _ Hin) as (v & rest & _ & ->);
    rewrite hook_pattern_type in Ht; discriminate Ht.
Qed.

(** C4 as stated fails: on the empty video list the format, engagement and
    theme detectors still append their constant entries, so the four
    sequences are not all empty. *)
Lemma empty_input_counterexample :
  ~ (_analyze_hooks [] = []
     /\ _analyze_format [] = []
     /\ _analyze_engagement [] = []
     /\ _analyze_themes [] = []).
Proof. intros (_ & H & _). discriminate H. Qed.

(** C4, as the code has it. On the empty video list the analysis returns no
    hook pattern, the two constant format trends, the three constant
    engagement tactics and the two constant themes; the summary names "0"
    average views, has no hook clause, and keeps the format, engagement
    and theme clauses built from the lower-cased constants. *)
Theorem empty_input_analysis (format_mean : Z -> nat -> string) :
  exists result,
    analyze_videos_template format_mean [] = Ok result
    /\ hook_patterns result = []
    /\ format_trends result
       = ["Hook (0-3s) → Problem/Pain Point (3-8s) → Solution/Value (8-20s) → CTA (last 5s)";
          "Fast-paced editing with text overlays and background music"]
    /\ engagement_tactics result
       = ["Open loops (creating curiosity gaps that keep viewers watching)";
          "Relatable scenarios that prompt viewers to tag friends";
          "Controversial or counterintuitive statements to drive discussion"]
    /\ content_themes result
       = ["Life hacks and everyday problem-solving";
          "Behind-the-scenes or 'day in the life' content"]
    /\ summary result
       = "The analyzed videos (averaging 0 views) typically use "
         ++ "with a structure that typically follows "
         ++ lower "Hook (0-3s) → Problem/Pain Point (3-8s) → Solution/Value (8-20s) → CTA (last 5s)"
         ++ ". "
         ++ "Successful videos employ "
         ++ lower "Open loops (creating curiosity gaps that keep viewers watching)"
         ++ " and "
         ++ lower "Relatable scenarios that prompt viewers to tag friends"
         ++ " to drive viewer interaction. "
         ++ "The most popular content focuses on "
         ++ lower "Life hacks and everyday problem-solving"
         ++ " and "
         ++ lower "Behind-the-scenes or 'day in the life' content"
         ++ "."
    /\ contains " hooks, " (summary result) = false.
Proof.
  eexists. split; [reflexivity|].
  cbn [hook_patterns format_trends engagement_tactics content_themes summary].
  repeat split.
Qed.

(** C6 as stated fails: the title "Room101 tour" has no number 1..10 among
    its whitespace-separated tokens, yet the analysis emits a
    "number-based" pattern for it. *)
Lemma number_hook_counterexample :
  emits "number-based" (_analyze_hooks [Samples.room_video])
  /\ has_standalone_number (title Samples.room_video) = false.
Proof.
  split; [|reflexivity].
  exists (hook_pattern "number-based" "Room101 tour"). split; [|reflexivity].
  vm_compute. auto.
Qed.

(** C6, as the code has it. The analysis emits a "number-based" pattern if
    and only if the title of some video contains the decimal text of some
    integer 1..10 as a substring, standalone or not; and the example of
    such a pattern is the title of the first video of the input that does. *)
Theorem number_hook_is_substring_match (videos : list VideoData) :
  (emits "number-based" (_analyze_hooks videos) <->
   exists v i, In v videos /\ 1 <= i <= 10 /\ contains (str i) (title v) = true)
  /\ (forall p,
        In p (_analyze_hooks videos) ->
        dict_get "type" p = Some "number-based" ->
        exists pre v post,
          videos = (pre ++ v :: post)%list
          /\ (forall u i, In u pre -> 1 <= i <= 10 ->
                          contains (str i) (title u) = false)
          /\ (exists i, 1 <= i <= 10 /\ contains (str i) (title v) = true)
          /\ dict_get "example" p = Some (title v)).
Proof.
  split.
  - split.
    + intros (p & Hin & Ht).
      destruct (in_emit _ _ _ (number_entry _ _ Hin Ht)) as (v & rest & Hf & _).
      assert (Hv : In v (filter is_number_hook videos)) by (rewrite Hf; now left).
      apply filter_In in Hv as [Hv1 Hv2].
      apply is_number_hook_iff in Hv2 as (i & Hi & Hc). eauto.
    + intros (v & i & Hin & Hi & Hc).
      assert (Hne : filter is_number_hook videos <> []).
      { apply filter_nonempty. exists v. split; auto.
        apply is_number_hook_iff. eauto. }
      destruct (filter is_number_hook videos) as [|v0 rest] eqn:Hf; [congruence|].
      exists (hook_pattern "number-based" (title v0)). split; [|reflexivity].
      unfold _analyze_hooks. rewrite Hf.
      apply in_or_app; right. apply in_or_app; right. apply in_or_app; left.
      now left.
  - intros p Hin Ht.
    destruct (in_emit _ _ _ (number_entry _ _ Hin Ht)) as (v & rest & Hf & ->).
    destruct (filter_head _ _ _ _ Hf) as (pre & post & -> & Hpre & Hv).
    exists pre, v, post. repeat split.
    + intros u i Hu Hi.
      destruct (contains (str i) (title u)) eqn:Hc; [|reflexivity].
      rewrite <- (Hpre u Hu). symmetry. apply is_number_hook_iff. eauto.
    + now apply is_number_hook_iff.
Qed.



End AnalyzerSpec.

(* ================================================================== *)
(** ** Scriptwriter: properties of the template generation *)
(* ================================================================== *)

Module ScriptwriterSpec.
Import PyStr Eff Props EffFacts PyStrFacts Scriptwriter.

Lemma total_lift {A} (r : res A) (a : A) : r = Ok a -> total (lift r) (fun x => x = a).
Proof. intros -> w. exists a, w. now split. Qed.

(** Theme selection reads one draw when themes are supplied and none
    otherwise. *)
Lemma select_theme_run (themes : list string) (w : rng) :
  exists selected,
    select_theme themes w
    = (Ok selected, match themes with [] => w | _ :: _ => tl w end)
    /\ match themes with
       | [] => selected = "productivity hacks"
       | _ :: _ => In selected themes
       end.
Proof.
  destruct themes as [|t ts].
  - exists "productivity hacks". split; reflexivity.
  - unfold select_theme, choice, bind, draw.
    assert (B : forall r, r mod List.length (t :: ts) < List.length (t :: ts))
      by (intros r; apply Nat.mod_upper_bound; simpl; lia).
    destruct w as [|r w]; cbn [tl].
    + destruct (nth_error (t :: ts) (0 mod List.length (t :: ts))) as [x|] eqn:E.
      * exists x. split; [reflexivity | eapply nth_error_In; eauto].
      * apply nth_error_None in E. specialize (B 0). lia.
    + destruct (nth_error (t :: ts) (r mod List.length (t :: ts))) as [x|] eqn:E.
      * exists x. split; [reflexivity | eapply nth_error_In; eauto].
      * apply nth_error_None in E. specialize (B r). lia.
Qed.

Lemma prompt_entries_ok (patterns : list Analyzer.dict) :
  typed_patterns patterns -> exists entries, prompt_entries patterns = Ok entries.
Proof.
  induction patterns as [|p ps IH]; intros H; simpl; [eauto|].
  destruct (H p) as (t & Ht); [now left|].
  unfold Analyzer.dict_item. rewrite Ht.
  destruct IH as (es & ->); [|eauto].
  intros q Hq. apply H. now right.
Qed.

Lemma first_word_lower_ok (theme : string) :
  words theme <> [] -> exists topic, first_word_lower theme = Ok topic.
Proof.
  unfold first_word_lower. destruct (words theme); [congruence | eauto].
Qed.

Lemma first_word_lower_raises (theme : string) :
  words theme = [] -> first_word_lower theme = Raise IndexError.
Proof. unfold first_word_lower. now intros ->. Qed.

Lemma get_action_total (theme : string) :
  total (_get_action_from_theme theme) (fun _ => True).
Proof.
  unfold _get_action_from_theme. cbv zeta.
  repeat match goal with
         | |- total (if ?c then _ else _) _ => destruct c
         end;
    try (eapply total_weaken; [apply total_choice; discriminate | auto]).
  now apply total_ret.
Qed.

Lemma hook_templates_nonempty (k : string) :
  table_get k hook_templates shock_templates <> [].
Proof.
  unfold hook_templates. cbn [table_get].
  repeat match goal with
         | |- (if ?c then _ else _) <> [] => destruct c
         end; discriminate.
Qed.

Lemma cta_templates_nonempty (k : string) :
  table_get k cta_templates all_cta_templates <> [].
Proof.
  unfold cta_templates. cbn [table_get].
  repeat match goal with
         | |- (if ?c then _ else _) <> [] => destruct c
         end; discriminate.
Qed.

(** With typed patterns and a theme that has a word, hook selection on the
    template path returns. *)
Lemma select_hook_total (patterns : list Analyzer.dict) (theme : string) :
  typed_patterns patterns -> words theme <> [] ->
  total (_select_hook no_gpt patterns theme) (fun _ => True).
Proof.
  intros Hp Ht. unfold _select_hook.
  destruct (prompt_entries_ok _ Hp) as (es & Hes).
  destruct (first_word_lower_ok _ Ht) as (topic & Htopic).
  eapply total_bind; [apply (total_lift _ _ Hes)|]. intros ? ->.
  change (usable (no_gpt (HookPrompt theme es))) with (@None string). cbv iota.
  destruct patterns as [|p ps].
  - eapply total_bind; [apply (total_lift _ _ Htopic)|]. intros ? ->.
    now apply total_ret.
  - eapply total_bind; [apply total_choice; discriminate|]. intros q Hq.
    destruct (Hp q Hq) as (t & Hqt).
    eapply total_bind.
    { apply (total_lift _ t). unfold Analyzer.dict_item. now rewrite Hqt. }
    intros ? ->.
    eapply total_bind; [apply total_choice, hook_templates_nonempty|]. intros tpl _.
    eapply total_bind; [apply (total_lift _ _ Htopic)|]. intros ? ->.
    eapply total_bind; [apply get_action_total|]. intros action _.
    eapply total_bind; [apply (total_lift _ _ Htopic)|]. intros ? ->.
    eapply total_bind; [apply (total_lift _ _ Htopic)|]. intros ? ->.
    eapply total_bind; [apply (total_lift _ _ Htopic)|]. intros ? ->.
    now apply total_ret.
Qed.

Lemma select_cta_total (tactics : list string) (platform theme : string) :
  words theme <> [] ->
  total (_select_cta no_gpt tactics platform theme) (fun _ => True).
Proof.
  intros Ht. unfold _select_cta.
  destruct (first_word_lower_ok _ Ht) as (topic & Htopic).
  change (usable (no_gpt (CtaPrompt platform theme tactics))) with (@None string).
  cbv iota zeta.
  eapply total_bind; [apply total_choice, cta_templates_nonempty|]. intros tpl _.
  eapply total_bind; [apply (total_lift _ _ Htopic)|]. intros ? ->.
  now apply total_ret.
Qed.

Lemma estimate_duration_range (full_script : string) :
  15 <= estimate_duration full_script <= 60.
Proof. unfold estimate_duration. cbv zeta. lia. Qed.

Lemma make_title_short (hook : string) : String.length (make_title hook) <= 60.
Proof.
  unfold make_title. destruct (60 <? String.length hook)%nat eqn:E.
  - rewrite length_append. pose proof (length_take 57 hook) as H.
    change (String.length "...") with 3. lia.
  - apply Nat.ltb_ge in E. exact E.
Qed.

Lemma select_theme_total (themes : list string) :
  worded_themes themes ->
  total (select_theme themes)
    (fun selected => words selected <> []
                     /\ match themes with
                        | [] => selected = "productivity hacks"
                        | _ :: _ => In selected themes
                        end).
Proof.
  intros Hw w. destruct (select_theme_run themes w) as (selected & E & H).
  exists selected. eexists. split; [exact E|]. split; [|exact H].
  destruct themes as [|t ts]; [subst; discriminate | now apply Hw].
Qed.

Lemma script_body_template (hook theme : string) (trends : list string) :
  _generate_script_body no_gpt hook theme trends
  = hook ++ blank_line ++ fst (body_bucket theme) ++ blank_line
    ++ snd (body_bucket theme).
Proof.
  unfold _generate_script_body.
  change (usable (no_gpt (BodyPrompt hook theme trends))) with (@None string).
  cbv iota. now destruct (body_bucket theme).
Qed.

(** The facts about an assembled response, once its fields are exposed. *)
Ltac response_facts hook :=
  exists hook; eexists; repeat split;
  [ rewrite script_body_template, !append_assoc; reflexivity
  | unfold make_title;
    destruct (Nat.ltb_spec 60 (String.length hook)),
             (Nat.leb_spec (String.length hook) 60); (reflexivity || lia)
  | apply make_title_short
  | apply estimate_duration_range
  | apply estimate_duration_range ].


(** The defect: a theme without any word makes hook selection raise
    [IndexError], whatever the draws. *)
Lemma select_hook_raises (patterns : list Analyzer.dict) (theme : string) (w : rng) :
  typed_patterns patterns -> words theme = [] ->
  exists w', _select_hook no_gpt patterns theme w = (Raise IndexError, w').
Proof.
  intros Hp Ht. unfold _select_hook.
  destruct (prompt_entries_ok _ Hp) as (es & Hes).
  pose proof (first_word_lower_raises _ Ht) as Hraise.
  rewrite (bind_ok _ _ w es w) by (unfold lift; now rewrite Hes).
  change (usable (no_gpt (HookPrompt theme es))) with (@None string). cbv iota.
  destruct patterns as [|p ps].
  - rewrite (bind_raise _ _ w IndexError w) by (unfold lift; now rewrite Hraise).
    eauto.
  - destruct (total_choice (p :: ps) ltac:(discriminate) w) as (q & w1 & E1 & Hq).
    rewrite (bind_ok _ _ _ _ _ E1).
    destruct (Hp q Hq) as (t & Hqt).
    rewrite (bind_ok _ _ w1 t w1)
      by (unfold lift, Analyzer.dict_item; now rewrite Hqt).
    destruct (total_choice _ (hook_templates_nonempty t) w1) as (tpl & w2 & E2 & _).
    rewrite (bind_ok _ _ _ _ _ E2).
    rewrite (bind_raise _ _ w2 IndexError w2) by (unfold lift; now rewrite Hraise).
    eauto.
Qed.

Lemma generate_script_raises (request : ScriptRequest) (theme : string) (w : rng) :
  typed_patterns (hook_patterns request) ->
  content_themes request = [theme] -> words theme = [] ->
  exists w', generate_script no_gpt request w = (Raise IndexError, w').
Proof.
  intros Hp Hthemes Ht.
  destruct (select_theme_run (content_themes request) w) as (selected & Esel & Hsel).
  rewrite Hthemes in Esel, Hsel. destruct Hsel as [<-|[]].
  destruct (select_hook_raises _ theme (tl w) Hp Ht) as (w' & E).
  exists w'. unfold generate_script. rewrite Hthemes.
  rewrite (bind_ok _ _ _ _ _ Esel). now rewrite (bind_raise _ _ _ _ _ E).
Qed.


Lemma sample_pattern_typed :
  typed_patterns (hook_patterns Samples.blank_theme_request).
Proof. intros p [<-|[]]. exists "shock-based". reflexivity. Qed.

(** C2, with the failing input. Whenever the template generation returns a
    response, its script opens with the hook, its title is the hook when
    the hook has at most 60 characters and otherwise the first 57
    characters followed by "...", so at most 60 characters long, and its
    estimated duration is [2 * word_count // 5] clamped to [15, 60].  But
    it does not return on every input: for the request with one
    shock-based pattern and the single theme of three blanks it raises
    [IndexError] from every state of the random source. *)
Theorem duration_and_title_unless_wordless (request : ScriptRequest) (w : rng) :
  match generate_script no_gpt request w with
  | (Ok response, _) =>
      exists hook rest,
        script response = hook ++ blank_line ++ rest
        /\ title response
           = (if (String.length hook <=? 60)%nat then hook else take 57 hook ++ "...")
        /\ String.length (title response) <= 60
        /\ estimated_duration response
           = Nat.max (Nat.min (2 * List.length (words (script response)) / 5) 60) 15
        /\ 15 <= estimated_duration response <= 60
  | (Raise _, _) => True
  end
  /\ exists w',
       generate_script no_gpt Samples.blank_theme_request w = (Raise IndexError, w').
Proof.
  split.
  - unfold generate_script.
    destruct (select_theme (content_themes request) w) as [[selected|e] w1] eqn:E1;
      [rewrite (bind_ok _ _ _ _ _ E1) | now rewrite (bind_raise _ _ _ _ _ E1)].
    destruct (_select_hook no_gpt (hook_patterns request) selected w1)
      as [[[htype hook]|e] w2] eqn:E2;
      [rewrite (bind_ok _ _ _ _ _ E2) | now rewrite (bind_raise _ _ _ _ _ E2)].
    cbv zeta. cbn [fst snd].
    destruct (_select_cta no_gpt (engagement_tactics request) (platform request)
                selected w2) as [[cta_text|e] w3] eqn:E3;
      [rewrite (bind_ok _ _ _ _ _ E3) | now rewrite (bind_raise _ _ _ _ _ E3)].
    unfold ret. cbn [script title estimated_duration].
    response_facts hook.
  - exact (generate_script_raises Samples.blank_theme_request "   " w
             sample_pattern_typed eq_refl eq_refl).
Qed.

(** C7. Within one request the theme is selected once: with no theme
    supplied it is the constant default and no draw is read, otherwise it
    is one of the supplied themes and exactly one draw is read.  That
    value is the theme argument of hook selection and of the closing line
    selection, the theme by which the body is built, and the theme of the
    response; when one of the two selections raises, the generation raises
    the same exception. *)
Theorem theme_held_constant (request : ScriptRequest) (w : rng) :
  exists selected w1,
    select_theme (content_themes request) w = (Ok selected, w1)
    /\ match content_themes request with
       | [] => selected = "productivity hacks" /\ w1 = w
       | _ :: _ => In selected (content_themes request) /\ w1 = tl w
       end
    /\ match _select_hook no_gpt (hook_patterns request) selected w1 with
       | (Raise e, w2) => generate_script no_gpt request w = (Raise e, w2)
       | (Ok hook_selection, w2) =>
           match _select_cta no_gpt (engagement_tactics request) (platform request)
                   selected w2 with
           | (Raise e, w3) => generate_script no_gpt request w = (Raise e, w3)
           | (Ok cta_text, w3) =>
               exists response,
                 generate_script no_gpt request w = (Ok response, w3)
                 /\ theme response = selected
                 /\ hook_type response = fst hook_selection
                 /\ title response = make_title (snd hook_selection)
                 /\ cta response = cta_text
                 /\ script response
                    = _generate_script_body no_gpt (snd hook_selection) selected
                        (format_trends request)
                      ++ blank_line ++ cta_text
           end
       end.
Proof.
  destruct (select_theme_run (content_themes request) w) as (selected & Esel & Hsel).
  exists selected. eexists. split; [exact Esel|]. split.
  - destruct (content_themes request); auto.
  - unfold generate_script. rewrite (bind_ok _ _ _ _ _ Esel).
    destruct (_select_hook no_gpt (hook_patterns request) selected _)
      as [[hook_selection|e] w2] eqn:EH.
    + rewrite (bind_ok _ _ _ _ _ EH). cbv zeta.
      destruct (_select_cta no_gpt (engagement_tactics request) (platform request)
                  selected w2) as [[cta_text|e] w3] eqn:EC.
      * rewrite (bind_ok _ _ _ _ _ EC). eexists. split; [reflexivity|].
        repeat split.
      * now rewrite (bind_raise _ _ _ _ _ EC).
    + now rewrite (bind_raise _ _ _ _ _ EH).
Qed.


End ScriptwriterSpec.

(* ================================================================== *)
(** ** Analyzer: further properties of the detectors and the summary *)
(* ================================================================== *)

Module AnalyzerExtra.
Import PyStr Eff Props MoreProps Analyzer AnalyzerSpec.

Lemma existsb_filter {A} (f : A -> bool) (l : list A) :
  existsb f l = match filter f l with [] => false | _ :: _ => true end.
Proof.
  induction l as [|a l IH]; simpl; [reflexivity|].
  destruct (f a); simpl; auto.
Qed.

Lemma hook_types_emit (t : string) (hooks : list VideoData) (rest : list dict)
    (ts : list string) :
  hook_types rest = Ok ts ->
  hook_types (emit t hooks ++ rest)
  = Ok ((match hooks with [] => [] | _ :: _ => [t] end) ++ ts)%list.
Proof.
  intros H. destruct hooks as [|v vs]; simpl; [exact H|].
  now rewrite H.
Qed.

(** The tags of the emitted patterns are the detected ones, in the order of
    the checks. *)
Lemma hook_types_filter (videos : list VideoData) :
  hook_types (_analyze_hooks videos) = Ok (filter (detected videos) hook_order).
Proof.
  unfold _analyze_hooks.
  rewrite (hook_types_emit "question-based" _ _
             ((match filter is_shock_hook videos with [] => [] | _ :: _ => ["shock-based"] end)
              ++ (match filter is_number_hook videos with [] => [] | _ :: _ => ["number-based"] end)
              ++ (match filter is_story_hook videos with [] => [] | _ :: _ => ["personal-story"] end))%list).
  - unfold hook_order, detected. cbn [filter].
    change (detector "question-based") with is_question_hook.
    change (detector "shock-based") with is_shock_hook.
    change (detector "number-based") with is_number_hook.
    change (detector "personal-story") with is_story_hook.
    rewrite !existsb_filter.
    destruct (filter is_question_hook videos), (filter is_shock_hook videos),
      (filter is_number_hook videos), (filter is_story_hook videos); reflexivity.
  - rewrite (hook_types_emit "shock-based" _ _
               ((match filter is_number_hook videos with [] => [] | _ :: _ => ["number-based"] end)
                ++ (match filter is_story_hook videos with [] => [] | _ :: _ => ["personal-story"] end))%list);
      [reflexivity|].
    rewrite (hook_types_emit "number-based" _ _
               (match filter is_story_hook videos with [] => [] | _ :: _ => ["personal-story"] end));
      [reflexivity|].
    destruct (filter is_story_hook videos); reflexivity.
Qed.

Lemma in_hooks (videos : list VideoData) (p : dict) :
  In p (_analyze_hooks videos) ->
  exists tag rest v,
    In tag hook_order /\ filter (detector tag) videos = v :: rest
    /\ p = hook_pattern tag (title v).
Proof.
  unfold _analyze_hooks. intros Hin.
  repeat (apply in_app_or in Hin as [Hin|Hin]);
    destruct (in_emit _ _ _ Hin) as (v & rest & Hf & ->).
  - exists "question-based", rest, v. repeat split; auto. simpl; auto.
  - exists "shock-based", rest, v. repeat split; auto. simpl; auto.
  - exists "number-based", rest, v. repeat split; auto. simpl; auto.
  - exists "personal-story", rest, v. repeat split; auto. simpl; auto 6.
Qed.

(** X1. The hook analysis emits at most one pattern per tag, in the fixed
    order question, shock, number, story whatever the order of the videos,
    exactly for the tags some video is detected for; and the example of
    each pattern is the title of the first video of the input that its
    detector accepts. *)
Theorem hook_patterns_fixed_order (videos : list VideoData) :
  hook_types (_analyze_hooks videos) = Ok (filter (detected videos) hook_order)
  /\ List.length (_analyze_hooks videos) <= 4
  /\ forall p,
       In p (_analyze_hooks videos) ->
       exists tag pre v post,
         In tag hook_order
         /\ videos = (pre ++ v :: post)%list
         /\ (forall u, In u pre -> detector tag u = false)
         /\ detector tag v = true
         /\ p = hook_pattern tag (title v).
Proof.
  split; [apply hook_types_filter|]. split.
  - unfold _analyze_hooks. rewrite !length_app.
    destruct (filter is_question_hook videos), (filter is_shock_hook videos),
      (filter is_number_hook videos), (filter is_story_hook videos); simpl; lia.
  - intros p Hin.
    destruct (in_hooks _ _ Hin) as (tag & rest & v & Htag & Hf & ->).
    destruct (filter_head _ _ _ _ Hf) as (pre & post & -> & Hpre & Hv).
    exists tag, pre, v, post. repeat split; auto.
Qed.

Lemma existsb_permutation {A} (f : A -> bool) (l l' : list A) :
  Permutation l l' -> existsb f l = existsb f l'.
Proof.
  induction 1; simpl; try congruence.
  - destruct (f x), (f y); reflexivity.
Qed.

(** X2. Reordering the videos changes neither the tags of the hook
    patterns nor the format trends, engagement tactics and themes; only
    the examples depend on the order. *)
Theorem analysis_ignores_video_order (videos videos' : list VideoData) :
  Permutation videos videos' ->
  hook_types (_analyze_hooks videos) = hook_types (_analyze_hooks videos')
  /\ _analyze_format videos = _analyze_format videos'
  /\ _analyze_engagement videos = _analyze_engagement videos'
  /\ _analyze_themes videos = _analyze_themes videos'.
Proof.
  intros HP. repeat split.
  - rewrite !hook_types_filter. f_equal. apply filter_ext.
    intros tag. unfold detected. now apply existsb_permutation.
  - unfold _analyze_format. cbv zeta.
    now rewrite !(existsb_permutation _ _ _ HP).
  - unfold _analyze_engagement. cbv zeta.
    now rewrite !(existsb_permutation _ _ _ HP).
  - unfold _analyze_themes, theme_check.
    now rewrite !(existsb_permutation _ _ _ HP).
Qed.

Lemma analysis_ignores_video_order_witness :
  hook_types (_analyze_hooks [MoreSamples.habits_video; MoreSamples.phone_video])
  = hook_types (_analyze_hooks [MoreSamples.phone_video; MoreSamples.habits_video])
  /\ _analyze_format [MoreSamples.habits_video; MoreSamples.phone_video]
     = _analyze_format [MoreSamples.phone_video; MoreSamples.habits_video]
  /\ _analyze_engagement [MoreSamples.habits_video; MoreSamples.phone_video]
     = _analyze_engagement [MoreSamples.phone_video; MoreSamples.habits_video]
  /\ _analyze_themes [MoreSamples.habits_video; MoreSamples.phone_video]
     = _analyze_themes [MoreSamples.phone_video; MoreSamples.habits_video].
Proof.
  apply (analysis_ignores_video_order
           [MoreSamples.habits_video; MoreSamples.phone_video]
           [MoreSamples.phone_video; MoreSamples.habits_video]).
  apply perm_swap.
Defined.

Lemma digit_head_contains (d : ascii) (sub s : string) :
  is_digit d = true -> contains (String d sub) s = true ->
  any_char is_digit s = true.
Proof.
  intros Hd. induction s as [|a s IH]; simpl; [discriminate|].
  intros H. apply orb_true_iff in H as [H|H].
  - apply andb_true_iff in H as [H _]. apply Ascii.eqb_eq in H. subst a.
    now rewrite Hd.
  - rewrite (IH H). apply orb_true_r.
Qed.

Lemma number_hook_has_digit (v : VideoData) :
  is_number_hook v = true -> any_char is_digit (title v) = true.
Proof.
  unfold is_number_hook. intros H.
  apply existsb_exists in H as (i & Hin & Hc). simpl in Hin.
  repeat (destruct Hin as [<-|Hin];
          [eapply digit_head_contains; [|exact Hc]; reflexivity|]).
  destruct Hin.
Qed.

Lemma has_type_in (tag : string) (patterns : list dict) :
  has_type tag patterns = true ->
  exists p, In p patterns /\ dict_get "type" p = Some tag.
Proof.
  unfold has_type. intros H. apply existsb_exists in H as (p & Hin & Hp).
  exists p. split; [exact Hin|].
  destruct (dict_get "type" p) as [t|]; [|discriminate].
  apply String.eqb_eq in Hp. now subst.
Qed.

(** X3. The detectors agree with each other: whenever the analysis emits a
    "number-based" hook pattern, its format trends list the list-based
    format. *)
Theorem number_hook_implies_list_format (videos : list VideoData) :
  has_type "number-based" (_analyze_hooks videos) = true ->
  mem "List-based format (e.g., '5 tips', '3 mistakes')" (_analyze_format videos)
  = true.
Proof.
  intros H. destruct (has_type_in _ _ H) as (p & Hin & Ht).
  destruct (in_emit _ _ _ (number_entry _ _ Hin Ht)) as (v & rest & Hf & _).
  assert (Hv : In v (filter is_number_hook videos)) by (rewrite Hf; now left).
  apply filter_In in Hv as [Hv1 Hv2].
  assert (E : existsb (fun v => any_char is_digit (title v)) videos = true).
  { apply existsb_exists. exists v. split; [exact Hv1|].
    now apply number_hook_has_digit. }
  unfold _analyze_format. cbv zeta. rewrite E.
  unfold mem. apply existsb_exists.
  exists "List-based format (e.g., '5 tips', '3 mistakes')".
  split; [|apply String.eqb_refl].
  apply in_or_app. left. now left.
Qed.

Lemma number_hook_implies_list_format_witness :
  mem "List-based format (e.g., '5 tips', '3 mistakes')"
      (_analyze_format [Samples.room_video]) = true.
Proof.
  apply (number_hook_implies_list_format [Samples.room_video]). reflexivity.
Defined.

Lemma startswith_refl (p : string) : startswith p p = true.
Proof. induction p as [|c p IH]; simpl; [reflexivity|]. now rewrite Ascii.eqb_refl. Qed.

Lemma startswith_app_l (p a b : string) :
  startswith p a = true -> startswith p (a ++ b) = true.
Proof.
  revert a. induction p as [|c p IH]; intros a H; [reflexivity|].
  destruct a as [|x a]; [discriminate|]. simpl in *.
  apply andb_true_iff in H as [H1 H2]. rewrite H1. simpl. now apply IH.
Qed.



(** A video list with a pattern lacking its tag makes the summary raise. *)
Example summary_raises_on_untyped_pattern :
  _generate_summary (fun _ _ => "0") [] [MoreSamples.untyped_pattern] [] [] []
  = Raise KeyError.
Proof. reflexivity. Qed.

Lemma existsb_incl {A} (f : A -> bool) (l l' : list A) :
  incl l l' -> existsb f l = true -> existsb f l' = true.
Proof.
  intros Hi H. apply existsb_exists in H as (x & Hx & Hf).
  apply existsb_exists. exists x. split; auto.
Qed.

Lemma append_if_incl (b b' : bool) (x : string) (r r' : list string) :
  (b = true -> b' = true) -> incl r r' ->
  incl (append_if b x ++ r) (append_if b' x ++ r').
Proof.
  intros Hb Hr y Hy. apply in_app_or in Hy as [Hy|Hy].
  - destruct b; [|destruct Hy]. rewrite (Hb eq_refl). apply in_or_app. now left.
  - apply in_or_app. right. now apply Hr.
Qed.

(** X5. Detections are monotone in the set of videos: with more videos no
    format trend, engagement tactic, theme or hook tag gets lost. *)
Theorem detections_monotone (videos videos' : list VideoData) :
  incl videos videos' ->
  incl (_analyze_format videos) (_analyze_format videos')
  /\ incl (_analyze_engagement videos) (_analyze_engagement videos')
  /\ incl (_analyze_themes videos) (_analyze_themes videos')
  /\ forall tag, detected videos tag = true -> detected videos' tag = true.
Proof.
  intros Hi. repeat split.
  - unfold _analyze_format. cbv zeta.
    repeat (apply append_if_incl; [apply (existsb_incl _ _ _ Hi)|]).
    apply incl_refl.
  - unfold _analyze_engagement. cbv zeta.
    repeat (apply append_if_incl; [apply (existsb_incl _ _ _ Hi)|]).
    apply incl_refl.
  - unfold _analyze_themes, theme_check.
    repeat (apply append_if_incl; [apply (existsb_incl _ _ _ Hi)|]).
    apply incl_refl.
  - intros tag. unfold detected. apply (existsb_incl _ _ _ Hi).
Qed.

Lemma detections_monotone_witness :
  incl (_analyze_format [MoreSamples.habits_video])
       (_analyze_format [MoreSamples.phone_video; MoreSamples.habits_video])
  /\ incl (_analyze_engagement [MoreSamples.habits_video])
          (_analyze_engagement [MoreSamples.phone_video; MoreSamples.habits_video])
  /\ incl (_analyze_themes [MoreSamples.habits_video])
          (_analyze_themes [MoreSamples.phone_video; MoreSamples.habits_video])
  /\ forall tag,
       detected [MoreSamples.habits_video] tag = true ->
       detected [MoreSamples.phone_video; MoreSamples.habits_video] tag = true.
Proof.
  apply (detections_monotone [MoreSamples.habits_video]
           [MoreSamples.phone_video; MoreSamples.habits_video]).
  intros v [<-|[]]. simpl. auto.
Defined.

End AnalyzerExtra.

(* ================================================================== *)
(** ** Sampling without replacement *)
(* ================================================================== *)

Module EffMore.
Import PyStr Eff Props MoreProps EffFacts.

Lemma mem_in (x : string) (l : list string) : mem x l = true <-> In x l.
Proof.
  unfold mem. rewrite existsb_exists. split.
  - intros (y & Hy & E). apply String.eqb_eq in E. now subst.
  - intros H. exists x. split; [exact H | apply String.eqb_refl].
Qed.

Lemma nodupb_nodup (l : list string) : nodupb l = true -> NoDup l.
Proof.
  induction l as [|x l IH]; simpl; intros H; [constructor|].
  apply andb_true_iff in H as [H1 H2]. constructor; [|auto].
  intros Hin. apply mem_in in Hin. rewrite Hin in H1. discriminate.
Qed.

Lemma inclb_incl (l l' : list string) : inclb l l' = true -> incl l l'.
Proof.
  unfold inclb. rewrite forallb_forall. intros H x Hx. apply mem_in. auto.
Qed.

Lemma pick_nodup {A} (l : list A) :
  forall i x rest,
    NoDup l -> pick i l = Some (x, rest) ->
    NoDup rest /\ ~ In x rest /\ incl rest l /\ In x l.
Proof.
  induction l as [|a l IH]; intros i x rest Hnd Hp; [destruct i; discriminate|].
  inversion Hnd as [|? ? Ha Hl]; subst.
  destruct i as [|j]; simpl in Hp.
  - injection Hp as <- <-. split; [exact Hl|]. split; [exact Ha|].
    split; [intros y Hy; now right | now left].
  - destruct (pick j l) as [[y r]|] eqn:E; [|discriminate].
    injection Hp as <- <-.
    destruct (IH _ _ _ Hl E) as (Hr & Hy & Hi & Hyl).
    repeat split.
    + constructor; [|exact Hr]. intros Hin. apply Ha. now apply Hi.
    + intros Hin. simpl in Hin. destruct Hin as [Heq|Hin].
      * subst. now apply Ha.
      * now apply Hy.
    + intros z Hz. simpl in Hz. destruct Hz as [Heq|Hz].
      * subst. now left.
      * right. now apply Hi.
    + now right.
Qed.

(** [random.sample] of a list without repeats gives [k] distinct entries
    of the list. *)
Lemma total_sample_nodup {A} :
  forall k (l : list A), NoDup l -> k <= List.length l ->
  total (sample l k)
    (fun xs => List.length xs = k /\ NoDup xs /\ incl xs l).
Proof.
  induction k as [|k IH]; intros l Hnd Hk.
  - apply total_ret. repeat split; [constructor | intros x []].
  - destruct l as [|a l]; [simpl in Hk; lia|].
    cbn [sample]. eapply total_bind; [apply total_draw|].
    intros r _.
    destruct (pick_some (a :: l) (r mod List.length (a :: l)))
      as (x & rest & E & HL & _ & _).
    { apply Nat.mod_upper_bound; simpl; lia. }
    rewrite E.
    destruct (pick_nodup _ _ _ _ Hnd E) as (Hr & Hx & Hi & Hxl).
    eapply total_bind.
    + apply (IH rest Hr). rewrite HL. simpl in *. lia.
    + intros xs (Hlen & Hxs & Hin). apply total_ret. repeat split.
      * simpl. now rewrite Hlen.
      * constructor; [|exact Hxs]. intros H. apply Hx. now apply Hin.
      * intros y [<-|Hy]; [exact Hxl | apply Hi; now apply Hin].
Qed.

End EffMore.

(* ================================================================== *)
(** ** VisualPlanner: further properties of the suggestions and the plan *)
(* ================================================================== *)

Module VisualPlannerExtra.
Import PyStr Eff Props MoreProps EffFacts EffMore PyStrFacts.
Import VisualPlanner VisualPlannerFacts.

Lemma effect_pool_cases (platform : string) :
  (effect_pool platform = effect_pool "TikTok"
   /\ String.eqb platform "Instagram" || String.eqb platform "YouTube" = false)
  \/ (effect_pool platform = effect_pool "Instagram"
      /\ String.eqb platform "Instagram" || String.eqb platform "YouTube" = true)
  \/ (effect_pool platform = effect_pool "YouTube"
      /\ String.eqb platform "Instagram" || String.eqb platform "YouTube" = true).
Proof.
  unfold effect_pool, visual_effects_table. cbn [table_get].
  destruct (String.eqb_spec platform "TikTok") as [->|_];
    [left; split; reflexivity|].
  destruct (String.eqb platform "Instagram");
    [right; left; split; reflexivity|].
  destruct (String.eqb platform "YouTube");
    [right; right; split; reflexivity | left; split; reflexivity].
Qed.

Lemma sample_available (av pool : list string) :
  nodupb av = true -> inclb av pool = true ->
  total (sample av (Nat.min 2 (List.length av)))
    (fun xs => NoDup xs /\ incl xs pool
               /\ List.length xs = Nat.min 2 (List.length av)).
Proof.
  intros Hn Hi.
  eapply total_weaken;
    [apply total_sample_nodup; [now apply nodupb_nodup | apply Nat.le_min_r]|].
  intros xs (Hl & Hx & Hin). repeat split; auto.
  intros x Hxin. apply (inclb_incl _ _ Hi). now apply Hin.
Qed.

Lemma visual_effects_facts (platform scene_type : string) :
  total (_suggest_visual_effects platform scene_type)
    (fun effects =>
       NoDup effects
       /\ incl effects (effect_pool platform)
       /\ List.length effects
          = if String.eqb scene_type "hook"
               && (String.eqb platform "Instagram" || String.eqb platform "YouTube")
            then 1 else 2).
Proof.
  intros w. unfold _suggest_visual_effects. cbv zeta.
  change (table_get platform visual_effects_table tiktok_effects)
    with (effect_pool platform).
  destruct (effect_pool_cases platform) as [[-> ->]|[[-> ->]|[-> ->]]];
    destruct (String.eqb scene_type "hook");
    [| destruct (String.eqb scene_type "cta") | | destruct (String.eqb scene_type "cta")
     | | destruct (String.eqb scene_type "cta")];
    match goal with
    | |- context [sample ?av _] =>
        match goal with
        | |- context [effect_pool ?p] =>
            destruct (sample_available av (effect_pool p) eq_refl eq_refl w)
              as (xs & w' & E & Hn & Hi & Hl)
        end
    end;
    exists xs, w'; repeat split; auto.
Qed.

(** X6. The effects suggested for a scene are distinct effects of the
    platform's pool (the TikTok pool for an unknown platform).  There are
    two of them, except for a hook scene on Instagram or YouTube, where
    only one preferred hook effect is in the pool and exactly one effect
    is returned. *)
Theorem visual_effects_from_pool (platform scene_type : string) (w : rng) :
  exists effects w',
    _suggest_visual_effects platform scene_type w = (Ok effects, w')
    /\ NoDup effects
    /\ incl effects (effect_pool platform)
    /\ List.length effects
       = if String.eqb scene_type "hook"
            && (String.eqb platform "Instagram" || String.eqb platform "YouTube")
         then 1 else 2.
Proof.
  destruct (visual_effects_facts platform scene_type w)
    as (effects & w' & E & Hn & Hi & Hl).
  exists effects, w'. auto.
Qed.

Lemma tips_pool_cases (platform : string) :
  let tips := table_get platform platform_tips default_tips in
  nodupb tips = true /\ 5 <= List.length tips.
Proof.
  unfold platform_tips. cbn [table_get].
  destruct (String.eqb platform "TikTok"); [split; [reflexivity | simpl; lia]|].
  destruct (String.eqb platform "Instagram"); [split; [reflexivity | simpl; lia]|].
  destruct (String.eqb platform "YouTube"); split; (reflexivity || (simpl; lia)).
Qed.

Lemma editing_tips_facts (platform : string) :
  total (_suggest_editing_tips platform)
    (fun tips =>
       List.length tips = 5 /\ NoDup tips
       /\ incl tips (table_get platform platform_tips default_tips)).
Proof.
  unfold _suggest_editing_tips. cbv zeta.
  destruct (tips_pool_cases platform) as [Hn Hlen].
  assert (Hmin : Nat.min 5 (List.length (table_get platform platform_tips default_tips)) = 5)
    by lia.
  rewrite Hmin.
  apply (total_sample_nodup 5 _ (nodupb_nodup _ Hn) Hlen).
Qed.

(** X7. The editing tips are five distinct tips of the platform's list;
    for a platform without a list of its own they are the five default
    tips, each exactly once, in some order. *)
Theorem editing_tips_five (platform : string) (w : rng) :
  exists tips w',
    _suggest_editing_tips platform w = (Ok tips, w')
    /\ List.length tips = 5
    /\ NoDup tips
    /\ incl tips (table_get platform platform_tips default_tips)
    /\ (table_get platform platform_tips default_tips = default_tips ->
        Permutation default_tips tips).
Proof.
  destruct (editing_tips_facts platform w) as (tips & w' & E & Hl & Hnd & Hi).
  exists tips, w'. repeat split; auto.
  intros Hdef. rewrite Hdef in Hi.
  apply Permutation_sym. apply NoDup_Permutation_bis; auto.
  rewrite Hl. reflexivity.
Qed.

Lemma effects_count (platform scene_type : string) (effects : list string) :
  List.length effects
  = (if String.eqb scene_type "hook"
        && (String.eqb platform "Instagram" || String.eqb platform "YouTube")
     then 1 else 2) ->
  1 <= List.length effects <= 2.
Proof.
  intros ->.
  destruct (String.eqb scene_type "hook"
            && (String.eqb platform "Instagram" || String.eqb platform "YouTube")); lia.
Qed.

Lemma content_scenes_annotated (platform niche : string) (duration : nat) :
  forall segments t,
    total (content_scenes platform niche duration segments t)
      (fun r => Forall (annotated platform) (fst r)).
Proof.
  induction segments as [|segment rest IH]; intros t.
  - apply total_ret. constructor.
  - cbn [content_scenes]. cbv zeta.
    eapply total_bind; [apply stock_footage_total|]. intros footage [Hf _].
    eapply total_bind; [apply visual_effects_facts|]. intros effects (He1 & He2 & He3).
    eapply total_bind; [apply total_choice; discriminate|]. intros trans Ht.
    eapply total_bind; [apply IH|]. intros [more total] Hm.
    apply total_ret. cbn [fst] in *. constructor; [|exact Hm].
    unfold annotated. cbn [stock_footage transition visual_effects].
    repeat split; auto; eapply effects_count; eauto.
Qed.

(** The details of a template plan besides its timing. *)
Lemma template_details (request : VisualPlanRequest) :
  total (_create_visual_plan_template request)
    (fun plan =>
       title plan
       = (if (String.length (request_hook request) <? 60)%nat
          then request_hook request
          else take 57 (request_hook request) ++ "...")
       /\ Forall (annotated (platform request)) (scenes plan)
       /\ (List.length (stock_footage_platforms plan) = 4
           /\ NoDup (stock_footage_platforms plan)
           /\ incl (stock_footage_platforms plan) footage_platforms)
       /\ (List.length (editing_tips plan) = 5
           /\ NoDup (editing_tips plan)
           /\ incl (editing_tips plan)
                   (table_get (platform request) platform_tips default_tips))).
Proof.
  unfold _create_visual_plan_template. cbv zeta.
  eapply total_bind; [apply stock_footage_total|]. intros hf [Hhf _].
  eapply total_bind; [apply visual_effects_facts|]. intros he (He1 & He2 & He3).
  eapply total_bind; [apply total_choice; discriminate|]. intros ht Hht.
  eapply total_bind; [apply content_scenes_annotated|].
  intros [content t] Hc. cbn [fst snd] in *.
  assert (Hcta : truthy (request_cta request) = true)
    by (apply or_else_truthy; reflexivity).
  rewrite Hcta.
  eapply total_bind.
  { eapply total_bind; [apply stock_footage_total|]. intros cf [Hcf _].
    eapply total_bind; [apply visual_effects_facts|]. intros ce (Hc1 & Hc2 & Hc3).
    apply total_ret.
    instantiate (1 := fun r => Forall (annotated (platform request)) (fst r)).
    cbn [fst]. constructor; [|constructor].
    unfold annotated. cbn [stock_footage transition visual_effects].
    repeat split; auto; try (eapply effects_count; eauto).
    simpl. auto. }
  intros [closing total] Hcl. cbn [fst snd] in *.
  eapply total_bind.
  { apply (total_sample_nodup (Nat.min 4 (List.length footage_platforms))
             footage_platforms).
    - apply nodupb_nodup. reflexivity.
    - apply Nat.le_min_r. }
  intros fp (Hfp1 & Hfp2 & Hfp3).
  eapply total_bind; [apply editing_tips_facts|]. intros tips Htips.
  apply total_ret.
  cbn [title scenes stock_footage_platforms editing_tips].
  split; [reflexivity|]. split; [|split; [auto | exact Htips]].
  constructor.
  - unfold annotated. cbn [stock_footage transition visual_effects].
    repeat split; auto; eapply effects_count; eauto.
  - apply Forall_app. split; assumption.
Qed.

(** X8. Every scene of a template plan carries exactly three footage
    suggestions, a transition of the fixed list, and one or two distinct
    effects of the platform's pool; the plan recommends four distinct
    footage platforms of the fixed list and five distinct editing tips of
    the platform's list. *)
Theorem template_annotations (request : VisualPlanRequest) (w : rng) :
  exists plan w',
    _create_visual_plan_template request w = (Ok plan, w')
    /\ Forall (annotated (platform request)) (scenes plan)
    /\ List.length (stock_footage_platforms plan) = 4
    /\ NoDup (stock_footage_platforms plan)
    /\ incl (stock_footage_platforms plan) footage_platforms
    /\ List.length (editing_tips plan) = 5
    /\ NoDup (editing_tips plan)
    /\ incl (editing_tips plan)
            (table_get (platform request) platform_tips default_tips).
Proof.
  destruct (template_details request w)
    as (plan & w' & E & _ & Hs & (P1 & P2 & P3) & (T1 & T2 & T3)).
  exists plan, w'. repeat split; auto.
Qed.

Lemma segment_duration_range (segments : list string) :
  3 <= segment_duration segments <= 10.
Proof. unfold segment_duration. lia. Qed.

(** The content loop stamps each scene with its own [duration] seconds. *)
Lemma content_scenes_stamps (platform niche : string) (duration : nat) :
  forall segments t,
    total (content_scenes platform niche duration segments t)
      (fun r => map timestamp (fst r) = stamps duration t (List.length segments)
                /\ map script_segment (fst r) = segments
                /\ snd r = t + duration * List.length segments).
Proof.
  induction segments as [|segment rest IH]; intros t.
  - apply total_ret. simpl. repeat split. lia.
  - cbn [content_scenes]. cbv zeta.
    eapply total_bind; [apply stock_footage_total|]. intros footage _.
    eapply total_bind; [apply visual_effects_total|]. intros effects _.
    eapply total_bind; [apply total_choice; discriminate|]. intros trans _.
    eapply total_bind; [apply IH|]. intros [more total] (H1 & H2 & H3).
    apply total_ret. cbn [fst snd] in *. repeat split.
    + cbn [map timestamp List.length stamps]. now rewrite H1.
    + cbn [map script_segment]. now rewrite H2.
    + rewrite H3. simpl List.length. lia.
Qed.

(** Timestamps, texts and recommendations of a template plan. *)
Lemma template_stamps (request : VisualPlanRequest) :
  total (_create_visual_plan_template request)
    (fun plan =>
       let segments := content_segments (script_segments (script request)) in
       let duration := segment_duration (script_segments (script request)) in
       let t := 5 + duration * List.length segments in
       map timestamp (scenes plan)
       = ("0:00-0:05" :: stamps duration 5 (List.length segments)
          ++ [fmt_range t (t + 5)])%list
       /\ map script_segment (scenes plan)
          = (request_hook request :: segments ++ [request_cta request])%list
       /\ total_duration plan = fmt_clock (t + 5)
       /\ music_recommendation plan
          = _suggest_music (request_niche request) (tone request)
       /\ voiceover_style plan
          = _suggest_voiceover (request_niche request) (tone request)).
Proof.
  unfold _create_visual_plan_template. cbv zeta.
  eapply total_bind; [apply stock_footage_total|]. intros hf _.
  eapply total_bind; [apply visual_effects_total|]. intros he _.
  eapply total_bind; [apply total_choice; discriminate|]. intros ht _.
  eapply total_bind; [apply content_scenes_stamps|].
  intros [content t] (H1 & H2 & H3). cbn [fst snd] in *.
  assert (Hc : truthy (request_cta request) = true)
    by (apply or_else_truthy; reflexivity).
  rewrite Hc.
  eapply total_bind.
  { eapply total_bind; [apply stock_footage_total|]. intros cf _.
    eapply total_bind; [apply visual_effects_total|]. intros ce _.
    apply total_ret.
    instantiate (1 := fun r =>
      map timestamp (fst r) = [fmt_range t (t + 5)]
      /\ map script_segment (fst r) = [request_cta request]
      /\ snd r = t + 5).
    cbn [fst snd map timestamp script_segment]. repeat split. }
  intros [closing total] (E1 & E2 & E3). cbn [fst snd] in *. subst total.
  eapply total_bind; [apply total_sample; apply Nat.le_min_r|]. intros fp _.
  eapply total_bind; [apply editing_tips_total|]. intros tips _.
  apply total_ret. cbv zeta.
  cbn [scenes total_duration music_recommendation voiceover_style].
  change (List.app (?x :: content) closing) with (x :: content ++ closing)%list.
  cbn [map timestamp script_segment]. rewrite !map_app, H1, H2, E1, E2, H3.
  repeat split.
Qed.

(** X9. The scenes of a template plan carry, in order, the hook, the
    content segments of the script and the closing line: for a script of
    three or more segments the content segments are the segments without
    the first and the last, otherwise all of them.  The hook scene spans
    "0:00-0:05", every content scene the same 3 to 10 seconds laid end to
    end, and the closing scene the 5 seconds after them, which end at the
    total duration; the title has at most 60 characters. *)
Theorem template_scene_texts (request : VisualPlanRequest) (w : rng) :
  exists plan w',
    _create_visual_plan_template request w = (Ok plan, w')
    /\ map script_segment (scenes plan)
       = (request_hook request
          :: content_segments (script_segments (script request))
          ++ [request_cta request])%list
    /\ content_segments (script_segments (script request))
       = (if (2 <? List.length (script_segments (script request)))%nat
          then removelast (tl (script_segments (script request)))
          else script_segments (script request))
    /\ map timestamp (scenes plan)
       = ("0:00-0:05"
          :: stamps (segment_duration (script_segments (script request))) 5
               (List.length (content_segments (script_segments (script request))))
          ++ [fmt_range
                (5 + segment_duration (script_segments (script request))
                     * List.length
                         (content_segments (script_segments (script request))))
                (10 + segment_duration (script_segments (script request))
                      * List.length
                          (content_segments (script_segments (script request))))])%list
    /\ total_duration plan
       = fmt_clock (10 + segment_duration (script_segments (script request))
                         * List.length
                             (content_segments (script_segments (script request))))
    /\ 3 <= segment_duration (script_segments (script request)) <= 10
    /\ String.length (title plan) <= 60.
Proof.
  destruct (template_stamps request w)
    as (plan & w' & E & Hts & Hseg & Htot & _).
  cbv zeta in Hts, Htot.
  destruct (template_details request w) as (plan' & w'' & E' & Htitle & _).
  rewrite E in E'. injection E' as <- <-.
  exists plan, w'. split; [exact E|].
  split; [exact Hseg|]. split; [reflexivity|]. split; [|split; [|split]].
  - rewrite Hts. do 4 f_equal. lia.
  - rewrite Htot. f_equal. lia.
  - apply segment_duration_range.
  - rewrite Htitle.
    destruct (Nat.ltb_spec (String.length (request_hook request)) 60); [lia|].
    rewrite length_append. pose proof (length_take 57 (request_hook request)).
    change (String.length "...") with 3. lia.
Qed.

Lemma hd_split_go_prefix (sep : string) :
  forall s cur, startswith (hd "" (split_go sep 0 cur s)) (cur ++ s) = true.
Proof.
  induction s as [|c s IH]; intros cur.
  - simpl. apply AnalyzerExtra.startswith_app_l, AnalyzerExtra.startswith_refl.
  - cbn [split_go]. destruct (startswith sep (String c s)).
    + cbn [hd]. apply AnalyzerExtra.startswith_app_l, AnalyzerExtra.startswith_refl.
    + specialize (IH (cur ++ String c "")).
      now rewrite append_assoc in IH.
Qed.

Lemma hd_split_go_dot :
  forall s cur, hd "" (split_go "." 0 cur s) = cur ++ before "."%char s.
Proof.
  induction s as [|c s IH]; intros cur.
  - simpl. now rewrite append_empty_r.
  - cbn [split_go before startswith].
    destruct (Ascii.eqb_spec "."%char c) as [<-|Hne].
    + rewrite Ascii.eqb_refl. cbn [andb hd]. now rewrite append_empty_r.
    + destruct (Ascii.eqb_spec c "."%char) as [->|_]; [congruence|].
      cbn [andb]. rewrite IH, append_assoc. reflexivity.
Qed.

(** X10. When the request brings no hook, the hook scene opens the plan
    with a prefix of the script: the text up to the first blank line, or,
    in a script without blank lines, the text before the first period. *)
Theorem default_hook_is_opening (request : VisualPlanRequest) (w : rng) :
  match hook request with Some h => h = "" | None => True end ->
  exists plan w' first rest,
    _create_visual_plan_template request w = (Ok plan, w')
    /\ scenes plan = first :: rest
    /\ startswith (script_segment first) (script request) = true
    /\ (if contains blank_line (script request)
        then script_segment first = hd "" (split blank_line (script request))
        else script_segment first = before "."%char (script request)).
Proof.
  intros Hh.
  destruct (template_shape request w)
    as (plan & w' & E & hs & content & cs & t & Hsc & _ & Hhs & _).
  exists plan, w', hs, (content ++ [cs])%list.
  assert (Hdef : request_hook request
                 = if contains blank_line (script request)
                   then hd "" (split blank_line (script request))
                   else hd "" (split "." (script request))).
  { unfold request_hook. destruct (hook request) as [h|]; [subst h|]; reflexivity. }
  rewrite Hhs, Hdef. repeat split; auto.
  - destruct (contains blank_line (script request)); apply (hd_split_go_prefix _ _ "").
  - destruct (contains blank_line (script request)); [reflexivity|].
    apply (hd_split_go_dot _ "").
Qed.

Lemma default_hook_is_opening_witness :
  exists plan w' first rest,
    _create_visual_plan_template Samples.single_sentence_request [] = (Ok plan, w')
    /\ scenes plan = first :: rest
    /\ startswith (script_segment first) (script Samples.single_sentence_request) = true
    /\ (if contains blank_line (script Samples.single_sentence_request)
        then script_segment first
             = hd "" (split blank_line (script Samples.single_sentence_request))
        else script_segment first
             = before "."%char (script Samples.single_sentence_request)).
Proof.
  apply (default_hook_is_opening Samples.single_sentence_request []). exact I.
Defined.

(** X17. A text overlay that is not elided is a prefix of the segment
    shorter than 40 characters: the segment itself, or its text before the
    first period.  Otherwise the overlay is the first five words joined by
    single blanks and followed by "...", whatever its length; and no
    overlay is suggested exactly when the segment has at least 40
    characters, no first clause under 40 characters, and at most five
    words. *)
Theorem text_overlay_cases (segment : string) :
  match _suggest_text_overlay segment with
  | Some overlay =>
      (String.length overlay < 40
       /\ startswith overlay segment = true
       /\ (overlay = segment \/ overlay = before "."%char segment))
      \/ (40 <= String.length segment
          /\ 5 < List.length (words segment)
          /\ overlay = join " " (firstn 5 (words segment)) ++ "...")
  | None =>
      40 <= String.length segment
      /\ List.length (words segment) <= 5
      /\ (contains "." segment = false
          \/ 40 <= String.length (before "."%char segment))
  end.
Proof.
  unfold _suggest_text_overlay. cbv zeta.
  assert (Hhd : hd "" (split "." segment) = before "."%char segment)
    by apply (hd_split_go_dot segment "").
  assert (Hpre : startswith (hd "" (split "." segment)) segment = true)
    by apply (hd_split_go_prefix "." segment "").
  destruct (Nat.ltb_spec (String.length segment) 40) as [Hs|Hs].
  - left. repeat split; [exact Hs | apply AnalyzerExtra.startswith_refl | now left].
  - destruct (contains "." segment) eqn:Hc; cbn [andb].
    + destruct (Nat.ltb_spec (String.length (hd "" (split "." segment))) 40) as [Hk|Hk].
      * left. repeat split; [exact Hk | exact Hpre | right; exact Hhd].
      * rewrite Hhd in Hk.
        destruct (Nat.ltb_spec 5 (List.length (words segment))) as [Hw|Hw].
        -- right. auto.
        -- repeat split; auto.
    + destruct (Nat.ltb_spec 5 (List.length (words segment))) as [Hw|Hw].
      * right. auto.
      * repeat split; auto.
Qed.

(** X18. When no niche keyword occurs in the niche, the footage suggestions
    come from the segment: with no word longer than three characters they
    are the three default suggestions, and otherwise they are up to three
    sampled keywords, each rendered as "<keyword> visual", followed by as
    many of the first default suggestions as it takes to make three. *)
Theorem stock_footage_from_keywords (segment niche_text : string) (w : rng) :
  exists l w',
    _suggest_stock_footage segment niche_text w = (Ok l, w')
    /\ match first_match niche_footage (lower niche_text) with
       | Some _ => True
       | None =>
           match segment_keywords segment with
           | [] => l = default_footage
           | _ :: _ =>
               exists kws,
                 l = (map visual kws
                      ++ firstn (3 - List.length kws) default_footage)%list
                 /\ List.length kws = Nat.min 3 (List.length (segment_keywords segment))
                 /\ forall kw, In kw kws ->
                      exists word, In word (words segment)
                                   /\ 3 < String.length word /\ kw = lower word
           end
       end.
Proof.
  unfold _suggest_stock_footage. cbv zeta.
  destruct (first_match niche_footage (lower niche_text)) as [s|] eqn:E.
  - destruct (stock_footage_total segment niche_text w) as (l & w' & El & _).
    unfold _suggest_stock_footage in El. cbv zeta in El. rewrite E in El.
    exists l, w'. auto.
  - destruct (segment_keywords segment) as [|kw kws0] eqn:K.
    + exists default_footage, w. auto.
    + destruct (total_sample (Nat.min 3 (List.length (kw :: kws0))) (kw :: kws0)
                  (Nat.le_min_r _ _) w) as (xs & w' & Ex & Hl & Hin).
      eexists _, w'. split.
      { rewrite (bind_ok _ _ _ _ _ Ex). reflexivity. }
      exists xs. rewrite length_map. repeat split; [exact Hl|].
      intros k Hk. specialize (Hin k Hk). rewrite <- K in Hin.
      unfold segment_keywords in Hin. apply in_map_iff in Hin as (word & <- & Hw).
      apply filter_In in Hw as [Hw1 Hw2]. apply Nat.ltb_lt in Hw2.
      exists word. auto.
Qed.

(** X21. The length of a template plan follows the number of script
    segments alone: up to twelve segments the plan lasts at most 40
    seconds, and beyond twelve every content scene gets the minimum of 3
    seconds and the plan lasts 3 seconds per segment plus 4. *)
Theorem plan_duration_bound (request : VisualPlanRequest) (w : rng) :
  exists plan w' seconds,
    _create_visual_plan_template request w = (Ok plan, w')
    /\ total_duration plan = fmt_clock seconds
    /\ (List.length (script_segments (script request)) <= 12 -> seconds <= 40)
    /\ (12 < List.length (script_segments (script request)) ->
        seconds = 3 * List.length (script_segments (script request)) + 4).
Proof.
  destruct (template_stamps request w) as (plan & w' & E & _ & _ & Htot & _).
  cbv zeta in Htot.
  exists plan, w'. eexists. split; [exact E|]. split; [exact Htot|].
  unfold content_segments, segment_duration.
  set (n := List.length (script_segments (script request))).
  destruct (Nat.ltb_spec 2 n) as [Hn|Hn].
  - assert (Hlen : List.length (removelast (tl (script_segments (script request))))
                   = n - 2).
    { subst n. destruct (script_segments (script request)) as [|a l]; [simpl in Hn; lia|].
      cbn [tl]. destruct l as [|b l] using rev_ind; [simpl in Hn; lia|].
      rewrite removelast_last. cbn [List.length] in *. rewrite length_app. simpl. lia. }
    rewrite Hlen. replace (Nat.max 1 (n - 2)) with (n - 2) by lia.
    split; intros H.
    + pose proof (Nat.Div0.mul_div_le 30 (n - 2)) as Hd.
      assert (3 <= 30 / (n - 2)).
      { apply Nat.div_le_lower_bound; lia. }
      nia.
    + assert (30 / (n - 2) < 3) by (apply Nat.Div0.div_lt_upper_bound; lia).
      lia.
  - split; intros H; [|lia].
    fold n. replace (Nat.max 1 (n - 2)) with 1 by lia.
    change (30 / 1) with 30. nia.
Qed.

End VisualPlannerExtra.

(* ================================================================== *)
(** ** Line breaks under the string primitives *)
(* ================================================================== *)

Module PyStrMore.
Import PyStr PyStrFacts.

Lemma lower_char_LF (a : ascii) : Ascii.eqb (lower_char a) LF = Ascii.eqb a LF.
Proof. destruct a as [[] [] [] [] [] [] [] []]; reflexivity. Qed.

Lemma lacks_lower (s : string) : lacks LF (lower s) = lacks LF s.
Proof.
  induction s as [|a s IH]; simpl; [reflexivity|].
  now rewrite lower_char_LF, IH.
Qed.

Lemma nonspace_not_LF (c : ascii) : is_space c = false -> Ascii.eqb c LF = false.
Proof.
  intros H. destruct (Ascii.eqb_spec c LF) as [->|]; [discriminate H | reflexivity].
Qed.

Lemma lacks_snoc (c a : ascii) (s : string) :
  lacks c (s ++ String a "") = lacks c s && negb (Ascii.eqb a c).
Proof. rewrite lacks_append. simpl. now rewrite andb_true_r. Qed.

(** Words carry no line break. *)
Lemma words_go_lacks :
  forall s cur,
    lacks LF cur = true -> Forall (fun w => lacks LF w = true) (words_go cur s).
Proof.
  induction s as [|c s IH]; intros cur Hc; simpl.
  - destruct (String.eqb cur ""); constructor; auto.
  - destruct (is_space c) eqn:E.
    + destruct (String.eqb cur ""); [apply IH; reflexivity|].
      constructor; [exact Hc | apply IH; reflexivity].
    + apply IH. rewrite lacks_snoc, Hc, (nonspace_not_LF _ E). reflexivity.
Qed.

Lemma words_lacks (s : string) : Forall (fun w => lacks LF w = true) (words s).
Proof. apply words_go_lacks. reflexivity. Qed.

(** The pieces of a text without a character are without it. *)
Lemma split_go_lacks (c : ascii) (sep : string) :
  forall s k cur,
    lacks c s = true -> lacks c cur = true ->
    Forall (fun piece => lacks c piece = true) (split_go sep k cur s).
Proof.
  induction s as [|a s IH]; intros k cur Hs Hc.
  - simpl. constructor; auto.
  - simpl in Hs. apply andb_true_iff in Hs as [Ha Hs].
    cbn [split_go]. destruct k as [|k]; [|now apply IH].
    destruct (startswith sep (String a s)).
    + constructor; [exact Hc | now apply IH].
    + apply IH; [exact Hs|]. now rewrite lacks_snoc, Hc, Ha.
Qed.

Lemma join_lacks (c : ascii) (sep : string) (l : list string) :
  lacks c sep = true -> Forall (fun piece => lacks c piece = true) l ->
  lacks c (join sep l) = true.
Proof.
  intros Hsep. induction 1 as [|x l Hx Hl IH]; [reflexivity|].
  unfold join in *. cbn [String.concat]. destruct l as [|y l]; [exact Hx|].
  now rewrite !lacks_append, Hx, Hsep, IH.
Qed.

Lemma replace_lacks (c : ascii) (old new s : string) :
  lacks c s = true -> lacks c new = true -> lacks c (replace old new s) = true.
Proof.
  intros Hs Hn. unfold replace, split.
  apply join_lacks; [exact Hn|]. now apply split_go_lacks.
Qed.




End PyStrMore.

(* ================================================================== *)
(** ** Scriptwriter: further properties of the generation *)
(* ================================================================== *)

Module ScriptwriterExtra.
Import PyStr Eff Props MoreProps EffFacts PyStrFacts PyStrMore.
Import Scriptwriter ScriptwriterSpec.

Lemma typed_patternsb_spec (patterns : list Analyzer.dict) :
  typed_patternsb patterns = true -> typed_patterns patterns.
Proof.
  unfold typed_patternsb. rewrite forallb_forall. intros H p Hp.
  specialize (H p Hp). destruct (Analyzer.dict_get "type" p) as [t|]; [eauto|discriminate].
Qed.

Lemma worded_themesb_spec (themes : list string) :
  worded_themesb themes = true -> worded_themes themes.
Proof.
  unfold worded_themesb. rewrite forallb_forall. intros H th Hth E.
  specialize (H th Hth). rewrite E in H. discriminate.
Qed.

Lemma first_word_lower_head (theme : string) :
  words theme <> [] ->
  first_word_lower theme = Ok (lower (hd "" (words theme)))
  /\ lacks LF (lower (hd "" (words theme))) = true.
Proof.
  intros H. unfold first_word_lower. pose proof (words_lacks theme) as F.
  destruct (words theme) as [|w ws]; [congruence|].
  split; [reflexivity|]. cbn [hd]. rewrite lacks_lower.
  now inversion F.
Qed.

Lemma get_action_lacks (theme : string) :
  total (_get_action_from_theme theme) (fun action => lacks LF action = true).
Proof.
  unfold _get_action_from_theme. cbv zeta.
  repeat match goal with
         | |- total (if ?c then _ else _) _ => destruct c
         end;
    try (eapply total_weaken; [apply total_choice; discriminate|];
         intros x Hx; simpl in Hx;
         repeat (destruct Hx as [<-|Hx]; [reflexivity|]); destruct Hx).
  now apply total_ret.
Qed.

Lemma hook_templates_lack (k tpl : string) :
  In tpl (table_get k hook_templates shock_templates) -> lacks LF tpl = true.
Proof.
  unfold hook_templates. cbn [table_get].
  repeat match goal with
         | |- In _ (if ?c then _ else _) -> _ => destruct c
         end;
    intros H; simpl in H; repeat (destruct H as [<-|H]; [reflexivity|]); destruct H.
Qed.

Lemma cta_templates_lack (k tpl : string) :
  In tpl (table_get k cta_templates all_cta_templates) -> lacks LF tpl = true.
Proof.
  unfold cta_templates. cbn [table_get].
  repeat match goal with
         | |- In _ (if ?c then _ else _) -> _ => destruct c
         end;
    intros H; simpl in H; repeat (destruct H as [<-|H]; [reflexivity|]); destruct H.
Qed.

(** Hook selection on the template path: the tag is that of a supplied
    pattern, or "shock-based" with the generic hook when none is supplied;
    the hook is one line. *)
Lemma select_hook_facts (patterns : list Analyzer.dict) (theme : string) :
  typed_patterns patterns -> words theme <> [] ->
  total (_select_hook no_gpt patterns theme)
    (fun hs =>
       lacks LF (snd hs) = true
       /\ match patterns with
          | [] => hs = ("shock-based",
                        "You've been approaching " ++ lower (hd "" (words theme))
                        ++ " all wrong.")
          | _ :: _ => exists p, In p patterns
                                /\ Analyzer.dict_get "type" p = Some (fst hs)
          end).
Proof.
  intros Hp Ht. unfold _select_hook.
  destruct (prompt_entries_ok _ Hp) as (es & Hes).
  destruct (first_word_lower_head _ Ht) as (Htopic & Hlacks).
  eapply total_bind; [apply (total_lift _ _ Hes)|]. intros ? ->.
  change (usable (no_gpt (HookPrompt theme es))) with (@None string). cbv iota.
  destruct patterns as [|p ps].
  - eapply total_bind; [apply (total_lift _ _ Htopic)|]. intros ? ->.
    apply total_ret. split; [|reflexivity]. cbn [snd].
    now rewrite !lacks_append, Hlacks.
  - eapply total_bind; [apply total_choice; discriminate|]. intros q Hq.
    destruct (Hp q Hq) as (t & Hqt).
    eapply total_bind.
    { apply (total_lift _ t). unfold Analyzer.dict_item. now rewrite Hqt. }
    intros ? ->.
    eapply total_bind; [apply total_choice, hook_templates_nonempty|]. intros tpl Htpl.
    apply hook_templates_lack in Htpl.
    eapply total_bind; [apply (total_lift _ _ Htopic)|]. intros ? ->.
    eapply total_bind; [apply get_action_lacks|]. intros action Hact.
    eapply total_bind; [apply (total_lift _ _ Htopic)|]. intros ? ->.
    eapply total_bind; [apply (total_lift _ _ Htopic)|]. intros ? ->.
    eapply total_bind; [apply (total_lift _ _ Htopic)|]. intros ? ->.
    apply total_ret. cbn [fst snd].
    split; [|exists q; split; [exact Hq | exact Hqt]].
    repeat (apply replace_lacks; [|try reflexivity; try assumption;
                                   now rewrite !lacks_append, Hlacks]).
    exact Htpl.
Qed.

Lemma select_cta_facts (tactics : list string) (platform theme : string) :
  words theme <> [] ->
  total (_select_cta no_gpt tactics platform theme)
    (fun cta_text => lacks LF cta_text = true).
Proof.
  intros Ht. unfold _select_cta.
  destruct (first_word_lower_head _ Ht) as (Htopic & Hlacks).
  change (usable (no_gpt (CtaPrompt platform theme tactics))) with (@None string).
  cbv iota zeta.
  eapply total_bind; [apply total_choice, cta_templates_nonempty|]. intros tpl Htpl.
  apply cta_templates_lack in Htpl.
  eapply total_bind; [apply (total_lift _ _ Htopic)|]. intros ? ->.
  apply total_ret.
  apply replace_lacks; [|reflexivity]. now apply replace_lacks.
Qed.

(** The response of the template path, field by field. *)
Lemma generate_script_facts (request : ScriptRequest) :
  typed_patterns (hook_patterns request) ->
  worded_themes (content_themes request) ->
  total (generate_script no_gpt request)
    (fun response =>
       exists hook,
         script response
         = hook ++ blank_line ++ fst (body_bucket (theme response)) ++ blank_line
           ++ snd (body_bucket (theme response)) ++ blank_line ++ cta response
         /\ lacks LF hook = true
         /\ lacks LF (cta response) = true
         /\ title response = make_title hook
         /\ words (theme response) <> []
         /\ match content_themes request with
            | [] => theme response = "productivity hacks"
            | _ :: _ => In (theme response) (content_themes request)
            end
         /\ match hook_patterns request with
            | [] => hook_type response = "shock-based"
                    /\ hook = "You've been approaching "
                              ++ lower (hd "" (words (theme response)))
                              ++ " all wrong."
            | _ :: _ => exists p, In p (hook_patterns request)
                                  /\ Analyzer.dict_get "type" p
                                     = Some (hook_type response)
            end).
Proof.
  intros Hp Hw. unfold generate_script.
  eapply total_bind; [apply (select_theme_total _ Hw)|]. intros selected [Hsel Hin].
  eapply total_bind; [apply (select_hook_facts _ _ Hp Hsel)|].
  intros [htype hook] [Hhook Htype]. cbv zeta. cbn [fst snd] in *.
  eapply total_bind; [apply (select_cta_facts _ _ _ Hsel)|]. intros cta_text Hcta.
  apply total_ret. cbn [script title theme cta hook_type].
  exists hook. repeat split; auto.
  - rewrite script_body_template, !append_assoc. reflexivity.
  - destruct (hook_patterns request); [|exact Htype].
    injection Htype as -> ->. split; reflexivity.
Qed.

(** X11. On the template path, with typed patterns and worded themes, the
    response's theme is one of the supplied themes (the default when none
    is supplied), and its hook type is the tag of one of the supplied
    patterns, also when that tag has no template list of its own; with no
    pattern supplied the hook type is "shock-based" and the title is the
    generic hook built from the lower-cased first word of the theme. *)
Theorem hook_type_from_patterns (request : ScriptRequest) (w : rng) :
  typed_patternsb (hook_patterns request) = true ->
  worded_themesb (content_themes request) = true ->
  exists response w',
    generate_script no_gpt request w = (Ok response, w')
    /\ match content_themes request with
       | [] => theme response = "productivity hacks"
       | _ :: _ => In (theme response) (content_themes request)
       end
    /\ match hook_patterns request with
       | [] => hook_type response = "shock-based"
               /\ title response
                  = make_title ("You've been approaching "
                                ++ lower (hd "" (words (theme response)))
                                ++ " all wrong.")
       | _ :: _ => exists p, In p (hook_patterns request)
                             /\ Analyzer.dict_get "type" p = Some (hook_type response)
       end.
Proof.
  intros Hp Hw.
  destruct (generate_script_facts request (typed_patternsb_spec _ Hp)
              (worded_themesb_spec _ Hw) w)
    as (response & w' & E & hook & _ & _ & _ & Htitle & _ & Hth & Hty).
  exists response, w'. repeat split; auto.
  destruct (hook_patterns request); [|exact Hty].
  destruct Hty as [Ht ->]. split; [exact Ht | exact Htitle].
Qed.

Lemma hook_type_from_patterns_witness :
  exists response w',
    generate_script no_gpt MoreSamples.two_pattern_request [1; 0; 2; 1; 3]
    = (Ok response, w')
    /\ match content_themes MoreSamples.two_pattern_request with
       | [] => theme response = "productivity hacks"
       | _ :: _ => In (theme response) (content_themes MoreSamples.two_pattern_request)
       end
    /\ match hook_patterns MoreSamples.two_pattern_request with
       | [] => hook_type response = "shock-based"
               /\ title response
                  = make_title ("You've been approaching "
                                ++ lower (hd "" (words (theme response)))
                                ++ " all wrong.")
       | _ :: _ => exists p, In p (hook_patterns MoreSamples.two_pattern_request)
                             /\ Analyzer.dict_get "type" p = Some (hook_type response)
       end.
Proof.
  apply (hook_type_from_patterns MoreSamples.two_pattern_request [1; 0; 2; 1; 3]);
    reflexivity.
Defined.

Lemma infer_hook_type_ok (gpt_hook : string) (patterns : list Analyzer.dict) :
  typed_patterns patterns ->
  exists t,
    infer_hook_type gpt_hook patterns = Ok t
    /\ (t = "shock-based"
        \/ exists p, In p patterns /\ Analyzer.dict_get "type" p = Some t).
Proof.
  induction patterns as [|p ps IH]; intros Hp.
  - exists "shock-based". auto.
  - destruct IH as (t & Ht & Hcase).
    { intros q Hq. apply Hp. now right. }
    assert (Hrest : exists t,
               infer_hook_type gpt_hook ps = Ok t
               /\ (t = "shock-based"
                   \/ exists q, In q (p :: ps) /\ Analyzer.dict_get "type" q = Some t)).
    { exists t. split; [exact Ht|]. destruct Hcase as [->|(q & Hq & Hqt)]; [now left|].
      right. exists q. split; [now right | exact Hqt]. }
    cbn [infer_hook_type].
    destruct (Analyzer.dict_get "example" p) as [ex|]; [|exact Hrest].
    destruct (truthy ex && existsb _ _); [|exact Hrest].
    destruct (Hp p (or_introl eq_refl)) as (tp & Htp).
    exists tp. unfold Analyzer.dict_item. rewrite Htp. split; [reflexivity|].
    right. exists p. split; [now left | exact Htp].
Qed.

(** X12. When the external service answers every prompt with a non-empty
    text, generation uses the three replies verbatim: the script is the
    hook reply, the body reply and the closing reply joined by blank
    lines, the title is the truncated hook reply, and the hook type is
    "shock-based" or the tag of a supplied pattern.  The only draw read is
    the one of the theme, and the theme needs no word: no [IndexError]
    arises on this path. *)
Theorem service_replies_used_verbatim
    (gpt : prompt -> option string) (request : ScriptRequest) (w : rng) :
  always_answers gpt ->
  typed_patternsb (hook_patterns request) = true ->
  exists response selected entries h b c,
    generate_script gpt request w
    = (Ok response, match content_themes request with [] => w | _ :: _ => tl w end)
    /\ theme response = selected
    /\ gpt (HookPrompt selected entries) = Some h
    /\ gpt (BodyPrompt h selected (format_trends request)) = Some b
    /\ gpt (CtaPrompt (platform request) selected (engagement_tactics request)) = Some c
    /\ script response = h ++ blank_line ++ b ++ blank_line ++ c
    /\ title response = make_title h
    /\ cta response = c
    /\ (hook_type response = "shock-based"
        \/ exists p, In p (hook_patterns request)
                     /\ Analyzer.dict_get "type" p = Some (hook_type response)).
Proof.
  intros Hg Hp. apply typed_patternsb_spec in Hp.
  destruct (select_theme_run (content_themes request) w) as (selected & Esel & _).
  destruct (prompt_entries_ok _ Hp) as (es & Hes).
  destruct (Hg (HookPrompt selected es)) as (h & Hh & Hht).
  destruct (Hg (BodyPrompt h selected (format_trends request))) as (b & Hb & Hbt).
  destruct (Hg (CtaPrompt (platform request) selected (engagement_tactics request)))
    as (c & Hc & Hct).
  destruct (infer_hook_type_ok h _ Hp) as (t & Ht & Hcase).
  set (w1 := match content_themes request with [] => w | _ :: _ => tl w end) in *.
  assert (EH : _select_hook gpt (hook_patterns request) selected w1 = (Ok (t, h), w1)).
  { unfold _select_hook.
    rewrite (bind_ok _ _ w1 es w1) by (unfold lift; now rewrite Hes).
    rewrite Hh. unfold usable. rewrite Hht.
    rewrite (bind_ok _ _ w1 t w1) by (unfold lift; now rewrite Ht).
    reflexivity. }
  assert (EC : _select_cta gpt (engagement_tactics request) (platform request)
                 selected w1 = (Ok c, w1)).
  { unfold _select_cta. rewrite Hc. unfold usable. rewrite Hct. reflexivity. }
  assert (EB : _generate_script_body gpt h selected (format_trends request)
               = h ++ blank_line ++ b).
  { unfold _generate_script_body. rewrite Hb. unfold usable. now rewrite Hbt. }
  eexists _, selected, es, h, b, c. split.
  { unfold generate_script.
    rewrite (bind_ok _ _ _ _ _ Esel), (bind_ok _ _ _ _ _ EH). cbv zeta. cbn [fst snd].
    rewrite (bind_ok _ _ _ _ _ EC). reflexivity. }
  cbn [theme script title cta hook_type]. repeat split; auto.
  now rewrite EB, !append_assoc.
Qed.

Lemma service_replies_used_verbatim_witness :
  exists response selected entries h b c,
    generate_script MoreSamples.echo_gpt Samples.empty_theme_request [7]
    = (Ok response,
       match content_themes Samples.empty_theme_request with
       | [] => [7]
       | _ :: _ => tl [7]
       end)
    /\ theme response = selected
    /\ MoreSamples.echo_gpt (HookPrompt selected entries) = Some h
    /\ MoreSamples.echo_gpt
         (BodyPrompt h selected (format_trends Samples.empty_theme_request)) = Some b
    /\ MoreSamples.echo_gpt
         (CtaPrompt (platform Samples.empty_theme_request) selected
            (engagement_tactics Samples.empty_theme_request)) = Some c
    /\ script response = h ++ blank_line ++ b ++ blank_line ++ c
    /\ title response = make_title h
    /\ cta response = c
    /\ (hook_type response = "shock-based"
        \/ exists p, In p (hook_patterns Samples.empty_theme_request)
                     /\ Analyzer.dict_get "type" p = Some (hook_type response)).
Proof.
  apply (service_replies_used_verbatim MoreSamples.echo_gpt
           Samples.empty_theme_request [7]).
  - intros p. exists "Stop scrolling.". split; reflexivity.
  - reflexivity.
Defined.

(** X13. The template path reads only the hook patterns, the themes and the
    platform of a request: two requests that agree on these three produce
    the same outcome from the same state of the random source, whatever
    their summaries, target lengths, niche insights, format trends and
    engagement tactics. *)
Theorem unread_fields_do_not_matter (r1 r2 : ScriptRequest) (w : rng) :
  hook_patterns r1 = hook_patterns r2 ->
  content_themes r1 = content_themes r2 ->
  platform r1 = platform r2 ->
  generate_script no_gpt r1 w = generate_script no_gpt r2 w.
Proof.
  destruct r1 as [hp1 ft1 et1 ct1 s1 tl1 pf1 ni1].
  destruct r2 as [hp2 ft2 et2 ct2 s2 tl2 pf2 ni2].
  cbn [hook_patterns content_themes platform].
  intros <- <- <-. reflexivity.
Qed.

Lemma unread_fields_do_not_matter_witness :
  generate_script no_gpt MoreSamples.two_pattern_request [1; 0; 2; 1; 3]
  = generate_script no_gpt MoreSamples.two_pattern_request_variant [1; 0; 2; 1; 3].
Proof.
  apply (unread_fields_do_not_matter MoreSamples.two_pattern_request
           MoreSamples.two_pattern_request_variant [1; 0; 2; 1; 3]); reflexivity.
Defined.

(** X19. The closing line of the template path is a template of the list
    filed under the lower-cased platform name, the generic list when the
    name is not filed, with "[topic]" replaced by the lower-cased first
    word of the theme and "[phrase]" by "I'll try this".  The template is
    drawn before the theme is split: on a theme without a word the call
    raises [IndexError] after the draw. *)
Theorem closing_line_from_platform_templates
    (tactics : list string) (platform_name theme_text : string) (w : rng) :
  match words theme_text with
  | [] =>
      exists w',
        _select_cta no_gpt tactics platform_name theme_text w = (Raise IndexError, w')
        /\ (w = [] \/ w' = tl w)
  | first :: _ =>
      exists tpl w',
        In tpl (table_get (lower platform_name) cta_templates all_cta_templates)
        /\ _select_cta no_gpt tactics platform_name theme_text w
           = (Ok (replace "[phrase]" "I'll try this"
                    (replace "[topic]" (lower first) tpl)), w')
  end.
Proof.
  unfold _select_cta.
  change (usable (no_gpt (CtaPrompt platform_name theme_text tactics)))
    with (@None string).
  cbv iota zeta.
  destruct (total_choice _ (cta_templates_nonempty (lower platform_name)) w)
    as (tpl & w1 & E & Hin).
  assert (Hw : w = [] \/ w1 = tl w).
  { destruct (table_get (lower platform_name) cta_templates all_cta_templates)
      as [|t ts] eqn:T; [discriminate E|].
    unfold choice, bind, draw in E. destruct w as [|r w0]; [now left|right].
    cbn [tl]. destruct (nth_error (t :: ts) _); [|discriminate E].
    unfold ret in E. now injection E as _ <-. }
  rewrite (bind_ok _ _ _ _ _ E). unfold first_word_lower.
  destruct (words theme_text) as [|first rest].
  - exists w1. split; [reflexivity | exact Hw].
  - exists tpl, w1. split; [exact Hin | reflexivity].
Qed.

(** Hook selection returns whatever the external service does, given typed
    patterns and a theme with a word. *)
Lemma select_hook_any_service
    (gpt : prompt -> option string) (patterns : list Analyzer.dict) (theme : string) :
  typed_patterns patterns -> words theme <> [] ->
  total (_select_hook gpt patterns theme) (fun _ => True).
Proof.
  intros Hp Ht w. destruct (prompt_entries_ok _ Hp) as (es & Hes).
  assert (Hentries : lift (prompt_entries patterns) w = (Ok es, w))
    by (unfold lift; now rewrite Hes).
  destruct (usable (gpt (HookPrompt theme es))) as [h|] eqn:U.
  - destruct (infer_hook_type_ok h _ Hp) as (t & Hty & _).
    exists (t, h), w. split; [|exact I].
    unfold _select_hook. rewrite (bind_ok _ _ _ _ _ Hentries), U.
    rewrite (bind_ok _ _ w t w) by (unfold lift; now rewrite Hty).
    reflexivity.
  - destruct (select_hook_total patterns theme Hp Ht w) as (a & w' & E & _).
    exists a, w'. split; [|exact I]. rewrite <- E.
    unfold _select_hook. rewrite (bind_ok _ _ _ _ _ Hentries), U.
    rewrite (bind_ok _ _ _ _ _ Hentries). reflexivity.
Qed.

Lemma select_cta_any_service
    (gpt : prompt -> option string) (tactics : list string) (platform theme : string) :
  words theme <> [] ->
  total (_select_cta gpt tactics platform theme) (fun _ => True).
Proof.
  intros Ht w.
  destruct (usable (gpt (CtaPrompt platform theme tactics))) as [c|] eqn:U.
  - exists c, w. split; [|exact I]. unfold _select_cta. now rewrite U.
  - destruct (select_cta_total tactics platform theme Ht w) as (a & w' & E & _).
    exists a, w'. split; [|exact I]. rewrite <- E.
    unfold _select_cta. now rewrite U.
Qed.

(** X20. With typed patterns and worded themes, generation returns a
    response whatever the external service does, prompt by prompt: answers,
    empty answers and failures may alternate.  The title has at most 60
    characters, the estimate lies between 15 and 60 seconds, the script
    ends with the closing line after a blank line, and the notes repeat
    the response's own duration, hook type and theme and the request's
    platform, followed by the note of the platform when it has one. *)
Theorem generation_returns_for_any_service
    (gpt : prompt -> option string) (request : ScriptRequest) (w : rng) :
  typed_patternsb (hook_patterns request) = true ->
  worded_themesb (content_themes request) = true ->
  exists response w' body,
    generate_script gpt request w = (Ok response, w')
    /\ script response = body ++ blank_line ++ cta response
    /\ String.length (title response) <= 60
    /\ 15 <= estimated_duration response <= 60
    /\ notes response
       = List.app
           ["Estimated duration: " ++ str (estimated_duration response) ++ " seconds";
            "Hook type: " ++ hook_type response;
            "Primary theme: " ++ theme response;
            "Target platform: " ++ platform request]
           (platform_note (platform request)).
Proof.
  intros Hp Hw. apply typed_patternsb_spec in Hp. apply worded_themesb_spec in Hw.
  destruct (select_theme_total _ Hw w) as (selected & w1 & E1 & Hsel & _).
  destruct (select_hook_any_service gpt _ selected Hp Hsel w1)
    as ([htype hook] & w2 & E2 & _).
  destruct (select_cta_any_service gpt (engagement_tactics request)
              (platform request) selected Hsel w2) as (closing & w3 & E3 & _).
  eexists _, w3, _. split.
  { unfold generate_script.
    rewrite (bind_ok _ _ _ _ _ E1), (bind_ok _ _ _ _ _ E2). cbv zeta. cbn [fst snd].
    rewrite (bind_ok _ _ _ _ _ E3). reflexivity. }
  cbn [script title estimated_duration notes hook_type theme cta].
  split; [reflexivity|]. split; [apply make_title_short|].
  split; [apply estimate_duration_range | reflexivity].
Qed.

Lemma generation_returns_for_any_service_witness :
  exists response w' body,
    generate_script MoreSamples.hook_only_gpt MoreSamples.two_pattern_request
      [1; 0; 2; 1; 3] = (Ok response, w')
    /\ script response = body ++ blank_line ++ cta response
    /\ String.length (title response) <= 60
    /\ 15 <= estimated_duration response <= 60
    /\ notes response
       = List.app
           ["Estimated duration: " ++ str (estimated_duration response) ++ " seconds";
            "Hook type: " ++ hook_type response;
            "Primary theme: " ++ theme response;
            "Target platform: " ++ platform MoreSamples.two_pattern_request]
           (platform_note (platform MoreSamples.two_pattern_request)).
Proof.
  apply (generation_returns_for_any_service MoreSamples.hook_only_gpt
           MoreSamples.two_pattern_request [1; 0; 2; 1; 3]); reflexivity.
Defined.

End ScriptwriterExtra.

(* ================================================================== *)
(** ** API glue: the niche filter and the pipeline on the template paths *)
(* ================================================================== *)

Module ApiSpec.
Import PyStr Eff Props MoreProps EffFacts PyStrFacts PyStrMore.
Import Api.

Lemma filter_twice {A} (f g : A -> bool) (l : list A) :
  filter f (filter g l) = filter (fun x => g x && f x) l.
Proof.
  induction l as [|a l IH]; simpl; [reflexivity|].
  destruct (g a); simpl; [destruct (f a)|]; now rewrite IH.
Qed.

Lemma filter_all {A} (l : list A) : filter (fun _ => true) l = l.
Proof. induction l as [|a l IH]; simpl; [reflexivity | now rewrite IH]. Qed.

Lemma filter_by_as_filter (target : option string)
    (field : EnhancedVideoData -> option string) (l : list EnhancedVideoData) :
  filter_by target field l
  = filter (fun v => match target with
                     | Some t => if truthy t then field_matches t (field v) else true
                     | None => true
                     end) l.
Proof.
  unfold filter_by. destruct target as [t|]; [destruct (truthy t)|];
    try reflexivity; now rewrite filter_all.
Qed.

Lemma rebuilt_video (v : Analyzer.VideoData) :
  Analyzer.mkVideoData (Analyzer.title v) (Analyzer.description v) (Analyzer.views v)
    (Analyzer.publishedAt v) (Analyzer.channel v) = v.
Proof. now destruct v. Qed.

(** X14. The three filtering steps of the niche analysis amount to one
    filter by the conjunction of the target tests: the videos kept are, in
    their input order, those whose niche, problem and audience each
    contain the corresponding target case-insensitively; a target that is
    absent or empty tests nothing, and a video without the field fails a
    present target.  The standard request carries the inherited fields of
    exactly these videos. *)
Theorem niche_filter_is_conjunction (request : EnhancedContentAnalysisRequest) :
  filtered_videos request = filter (passes_targets request) (videos request)
  /\ (forall v, In v (filtered_videos request) <->
                In v (videos request) /\ passes_targets request v = true)
  /\ standard_videos request = map base (filtered_videos request)
  /\ List.length (standard_videos request) <= List.length (videos request).
Proof.
  assert (E : filtered_videos request
              = filter (passes_targets request) (videos request)).
  { unfold filtered_videos. cbv zeta.
    rewrite !filter_by_as_filter, !filter_twice.
    apply filter_ext. intros v. unfold passes_targets.
    now rewrite ?andb_assoc. }
  assert (S : standard_videos request = map base (filtered_videos request)).
  { unfold standard_videos. apply map_ext. intros v. apply rebuilt_video. }
  split; [exact E|]. split; [|split; [exact S|]].
  - intros v. rewrite E. apply filter_In.
  - rewrite S, length_map, E. apply filter_length_le.
Qed.

(** The niche filter on the sample request keeps the one fitness video. *)
Example fitness_filter :
  filtered_videos MoreSamples.fitness_request = [MoreSamples.fitness_video].
Proof. reflexivity. Qed.











End ApiSpec.
